(** * PyUpdater: the JSON document store, the shared registry and the
    configuration object

    A shallow embedding of [pyupdater/utils/storage.py] (classes
    [JSONStore] and [Storage]) and [pyupdater/utils/config.py] (class
    [Config]), with the properties of the design document stated over it.

    Conventions of the embedding.
    - Python dictionaries with string keys are finite maps
      [gmap string value]; the order of iteration never matters to the
      properties below, and loops over [d.items()] are folds over
      [map_to_list d].
    - Python objects are values of the type [value]; the objects that are
      not JSON data (functions, descriptors, the store and the registry
      themselves) are tokens, because the code only tests what kind of
      object they are.
    - Exceptions are the [Raise] outcome of a state-and-error monad; a
      raised exception keeps the state changes made before it.
    - Field names are ASCII strings. *)

From Stdlib Require Import Ascii String.
From stdpp Require Import gmap strings list fin_maps.

Set Default Proof Using "Type".

(** ** Python values *)

#[warnings="-register-all"]
Inductive value :=
| VNone
| VBool (b : bool)
| VInt (z : Z)
| VStr (s : string)
| VList (l : list value)
| VDict (d : gmap string value)
| VFunc (name : string)    (* a function object, as found in a class dict *)
| VDescr (name : string)   (* a getset descriptor: [__dict__], [__weakref__] *)
| VStore                   (* the [JSONStore] instance *)
| VStorage.                (* a [Storage] instance *)

Abbreviation dict := (gmap string value).

(** [x is False], [x is True], [x is None]. *)
Definition is_False (v : value) : bool :=
  match v with VBool false => true | _ => false end.
Definition is_True (v : value) : bool :=
  match v with VBool true => true | _ => false end.
Definition is_None (v : value) : bool :=
  match v with VNone => true | _ => false end.

(** *** Decidable equality of values ([==] on JSON data) *)

Fixpoint value_size (v : value) : nat :=
  match v with
  | VList l => S (foldr (λ x acc, value_size x + acc) 0 l)
  | VDict d => S (map_fold (λ _ x acc, value_size x + acc) 0 d)
  | _ => 1
  end.

Fixpoint value_eqb (v w : value) {struct v} : bool :=
  match v, w with
  | VNone, VNone => true
  | VBool a, VBool b => bool_decide (a = b)
  | VInt a, VInt b => bool_decide (a = b)
  | VStr a, VStr b => bool_decide (a = b)
  | VList l, VList m =>
      (fix go l m :=
         match l, m with
         | [], [] => true
         | x :: l, y :: m => value_eqb x y && go l m
         | _, _ => false
         end) l m
  | VDict d, VDict e =>
      bool_decide (dom d = dom e) &&
      map_fold (λ k x acc,
                match e !! k with
                | Some y => value_eqb x y
                | None => false
                end && acc) true d
  | VFunc a, VFunc b => bool_decide (a = b)
  | VDescr a, VDescr b => bool_decide (a = b)
  | VStore, VStore => true
  | VStorage, VStorage => true
  | _, _ => false
  end.

Definition dict_eqb (d e : dict) : bool := value_eqb (VDict d) (VDict e).

(** [a != b] where [a] is [None] or a dict and [b] is a dict. *)
Definition differs (a : option dict) (b : dict) : bool :=
  match a with
  | Some d => negb (dict_eqb d b)
  | None => true
  end.

(** What [json.dumps] accepts: JSON data all the way down. *)
Fixpoint json_ok (v : value) : bool :=
  match v with
  | VNone | VBool _ | VInt _ | VStr _ => true
  | VList l => forallb json_ok l
  | VDict d => map_fold (λ _ x acc, json_ok x && acc) true d
  | VFunc _ | VDescr _ | VStore | VStorage => false
  end.

(** ** Strings: [str.isupper] and [os.path.join] *)

Definition is_lower_char (c : ascii) : bool :=
  let n := nat_of_ascii c in (97 <=? n) && (n <=? 122).
Definition is_upper_char (c : ascii) : bool :=
  let n := nat_of_ascii c in (65 <=? n) && (n <=? 90).

Fixpoint chars (s : string) : list ascii :=
  match s with
  | EmptyString => []
  | String c s => c :: chars s
  end.

(** [s.isupper()]: no cased character is lower-case and there is at
    least one cased character. *)
Definition isupper (s : string) : bool :=
  forallb (λ c, negb (is_lower_char c)) (chars s) &&
  existsb is_upper_char (chars s).

Definition starts_with_slash (s : string) : bool :=
  match s with String "/" _ => true | _ => false end.
Definition ends_with_slash (s : string) : bool :=
  match last (chars s) with Some "/"%char => true | _ => false end.

(** One round of the loop of [posixpath.join]. *)
Definition join1 (path b : string) : string :=
  if starts_with_slash b then b
  else if bool_decide (path = "") || ends_with_slash path then path +:+ b
  else path +:+ "/" +:+ b.

Definition path_join (a : string) (p : list string) : string :=
  foldl join1 a p.

(** ** Exceptions and the monad *)

Inductive exn :=
| KeyError (key : string)
| AttributeError (name : string)
| TypeError
| ValueError
| IOError
| ConfigError (msg : string).

Inductive result (A : Type) :=
| Ok (a : A)
| Raise (e : exn).
Arguments Ok {A} a.
Arguments Raise {A} e.

Definition M (Σ A : Type) : Type := Σ → result A * Σ.

Definition ret {Σ A} (a : A) : M Σ A := λ σ, (Ok a, σ).
Definition bind {Σ A B} (m : M Σ A) (f : A → M Σ B) : M Σ B :=
  λ σ, match m σ with
       | (Ok a, σ') => f a σ'
       | (Raise e, σ') => (Raise e, σ')
       end.
Definition raise {Σ A} (e : exn) : M Σ A := λ σ, (Raise e, σ).
Definition gets {Σ A} (f : Σ → A) : M Σ A := λ σ, (Ok (f σ), σ).
Definition modify {Σ} (f : Σ → Σ) : M Σ unit := λ σ, (Ok tt, f σ).
(** [try: m except Exception: h]. *)
Definition try_except {Σ A} (m : M Σ A) (h : exn → M Σ A) : M Σ A :=
  λ σ, match m σ with
       | (Ok a, σ') => (Ok a, σ')
       | (Raise e, σ') => h e σ'
       end.

Notation "x <- c ;; k" := (bind c (λ x, k))
  (at level 100, c at next level, right associativity).
Notation "c ;; k" := (bind c (λ _, k))
  (at level 100, right associativity).

(** [for x in xs: body x]. *)
Fixpoint for_each {Σ A} (xs : list A) (body : A → M Σ unit) : M Σ unit :=
  match xs with
  | [] => ret tt
  | x :: xs => body x ;; for_each xs body
  end.

Definition when {Σ} (b : bool) (m : M Σ unit) : M Σ unit :=
  if b then m else ret tt.

(** ** The file system

    A file holds the text of a JSON object (kept as the object itself:
    [json.load] of what [json.dumps] wrote gives the data back), the
    generated client configuration module, or anything else, which
    [json.load] rejects (an empty file, malformed JSON).  A file whose
    text is valid JSON without being an object is not modelled.  Opening
    a file for writing is taken to succeed; every such opening is
    logged. *)

Inductive attr_line :=
| QuotedAttr (name : string) (v : value)   (* "\t{} = '{}'\n" *)
| PlainAttr (name : string) (v : value).   (* "\t{} = {}\n" *)

Inductive file :=
| FJson (doc : dict)
| FClientConfig (body : list attr_line)
| FOther.

(** ** storage.py: class JSONStore *)

Record JSONStore := mkJSONStore {
  path : string;
  json_kw : dict;
  _data : dict;
  _synced_json_kw : option dict;
  _needs_sync : bool;
  _data_from_disk_loaded : bool;
}.

(** The store object together with the disk it reads and writes. *)
Record StoreState := mkStoreState {
  files : gmap string file;
  writes : list string;          (* paths opened for writing, newest first *)
  this : JSONStore;
}.

Definition set_this (f : JSONStore → JSONStore) (σ : StoreState) : StoreState :=
  mkStoreState (files σ) (writes σ) (f (this σ)).
Definition set__data (d : dict) (s : JSONStore) : JSONStore :=
  mkJSONStore (path s) (json_kw s) d (_synced_json_kw s) (_needs_sync s)
              (_data_from_disk_loaded s).
Definition set__needs_sync (b : bool) (s : JSONStore) : JSONStore :=
  mkJSONStore (path s) (json_kw s) (_data s) (_synced_json_kw s) b
              (_data_from_disk_loaded s).
Definition set__synced_json_kw (kw : option dict) (s : JSONStore) : JSONStore :=
  mkJSONStore (path s) (json_kw s) (_data s) kw (_needs_sync s)
              (_data_from_disk_loaded s).
Definition set__data_from_disk_loaded (b : bool) (s : JSONStore) : JSONStore :=
  mkJSONStore (path s) (json_kw s) (_data s) (_synced_json_kw s)
              (_needs_sync s) b.

(** [open(p, 'w')] followed by [write]: the file is truncated when it is
    opened, then receives its content. *)
Definition open_w (p : string) (σ : StoreState) : StoreState :=
  mkStoreState (<[p := FOther]> (files σ)) (p :: writes σ) (this σ).
Definition write_file (p : string) (f : file) (σ : StoreState) : StoreState :=
  mkStoreState (<[p := f]> (files σ)) (writes σ) (this σ).

(** Truth value of a dict. *)
Definition nonempty (d : dict) : bool :=
  match map_to_list d with
  | [] => false
  | _ :: _ => true
  end.

(** [x or y] on an optional dict: [None] and the empty dict are falsy. *)
Definition dict_or (x : option dict) (y : dict) : dict :=
  match x with
  | Some d => if nonempty d then d else y
  | None => y
  end.

Module JSONStore.

(** [__init__(self, path, json_kw=None)]: no disk access. *)
Definition __init__ (p : string) (kw : option dict) : JSONStore :=
  mkJSONStore p (dict_or kw ∅) ∅ None false false.

(** [io.open(self.path, 'r')] then [json.load(fp)]. *)
Definition read_json : M StoreState dict :=
  λ σ, match files σ !! path (this σ) with
       | None => (Raise IOError, σ)
       | Some (FJson doc) => (Ok doc, σ)
       | Some _ => (Raise ValueError, σ)
       end.

(** The body of [__setitem__] after its lazy-load guard. *)
Definition store_item (key : string) (v : value) : M StoreState unit :=
  modify (set_this (λ s, set__needs_sync true (set__data (<[key := v]> (_data s)) s))).

(** [self.update(d)] of the mapping mixin assigns item by item through
    [__setitem__]; it runs with [_data_from_disk_loaded] already set,
    so the guard of [__setitem__] is not taken again. *)
Definition update (d : dict) : M StoreState unit :=
  for_each (map_to_list d) (λ kv, store_item kv.1 kv.2).

Definition _load_data_from_disk : M StoreState unit :=
  modify (set_this (set__data_from_disk_loaded true)) ;;
  try_except (d <- read_json ;; update d)
             (λ _, ret tt)   (* log.warning(err) *).

(** [if self._data_from_disk_loaded is False: self._load_data_from_disk()] *)
Definition lazy_load : M StoreState unit :=
  loaded <- gets (λ σ, _data_from_disk_loaded (this σ)) ;;
  when (negb loaded) _load_data_from_disk.

Definition __getitem__ (key : string) : M StoreState value :=
  lazy_load ;;
  d <- gets (λ σ, _data (this σ)) ;;
  match d !! key with
  | Some v => ret v
  | None => raise (KeyError key)
  end.

Definition __setitem__ (key : string) (v : value) : M StoreState unit :=
  lazy_load ;; store_item key v.

Definition __delitem__ (key : string) : M StoreState unit :=
  lazy_load ;;
  d <- gets (λ σ, _data (this σ)) ;;
  match d !! key with
  | Some _ =>
      modify (set_this (λ s, set__needs_sync true (set__data (delete key d) s)))
  | None => raise (KeyError key)
  end.

Definition __len__ : M StoreState nat :=
  lazy_load ;; gets (λ σ, size (_data (this σ))).

Definition __iter__ : M StoreState (list (string * value)) :=
  lazy_load ;; gets (λ σ, map_to_list (_data (this σ))).

Definition reserved_names : list string :=
  ["__weakref__"; "__module__"; "__dict__"; "__doc__"].

(** [hasattr(v, '__call__')].  A [Storage] instance answers every
    attribute lookup through its [__getattr__], so the test holds
    for it too. *)
Definition has_call (v : value) : bool :=
  match v with VFunc _ | VStorage => true | _ => false end.
Definition is_JSONStore (v : value) : bool :=
  match v with VStore => true | _ => false end.

(** The three [continue] tests of [_sanatize]. *)
Definition kept (k : string) (v : value) : bool :=
  negb (has_call v) && negb (is_JSONStore v) &&
  negb (bool_decide (k ∈ reserved_names)).

Definition _sanatize (data : dict) : dict :=
  filter (λ kv, kept kv.1 kv.2 = true) data.

Definition copy : M StoreState dict :=
  lazy_load ;; gets (λ σ, _data (this σ)).

Definition keys : M StoreState (list string) :=
  lazy_load ;; gets (λ σ, (map_to_list (_data (this σ))).*1).

(** [json.dumps(data, ensure_ascii=False, indent=2)] *)
Definition json_dumps (data : dict) : result file :=
  if json_ok (VDict data) then Ok (FJson data) else Raise TypeError.

Definition sync (kw : option dict) (force : bool) : M StoreState bool :=
  lazy_load ;;
  self_kw <- gets (λ σ, json_kw (this σ)) ;;
  let kw := dict_or kw self_kw in
  synced <- gets (λ σ, _synced_json_kw (this σ)) ;;
  when (differs synced kw)
       (modify (set_this (set__needs_sync true))) ;;
  needs <- gets (λ σ, _needs_sync (this σ)) ;;
  if negb (needs || force) then ret false
  else
    data <- gets (λ σ, _sanatize (_data (this σ))) ;;
    p <- gets (λ σ, path (this σ)) ;;
    modify (open_w p) ;;
    match json_dumps data with
    | Raise e => raise e
    | Ok text =>
        modify (write_file p text) ;;
        modify (set_this (λ s, set__needs_sync false
                                 (set__synced_json_kw (Some kw) s))) ;;
        ret true
    end.

End JSONStore.

(** ** The constants of [pyupdater/settings.py]

    The module [pyupdater.settings] is imported by both classes; its
    text is not among the modules embedded here, and its constants are
    parameters. *)

Class Settings := {
  CONFIG_DATA_FOLDER : string;
  CONFIG_FILE_USER : string;
  CONFIG_DB_KEY_APP_CONFIG : string;
  CONFIG_DB_KEY_KEYPACK : string;
  GENERIC_APP_NAME : string;
  DEFAULT_CLIENT_CONFIG : list string;
}.

(** ** The process

    One process has a working directory, a disk, the class object
    [Storage] with its namespace [Storage.__dict__], and the [JSONStore]
    object that the class attribute [Storage.db] refers to.

    [Storage.__setattr__] sends every assignment [self.x = v] to the
    class, so a [Storage] instance never has state of its own: every
    [self.x] reads the class namespace, and any two instances are
    interchangeable.  The methods below therefore take no [self]. *)

Record World := mkWorld {
  cwd : string;
  store : StoreState;
  Storage_dict : dict;
}.

Definition set_store (f : StoreState → StoreState) (w : World) : World :=
  mkWorld (cwd w) (f (store w)) (Storage_dict w).
Definition set_Storage_dict (f : dict → dict) (w : World) : World :=
  mkWorld (cwd w) (store w) (f (Storage_dict w)).

(** Run a [JSONStore] method on the store of the process. *)
Definition on_store {A} (m : M StoreState A) : M World A :=
  λ w, let (r, σ) := m (store w) in (r, set_store (λ _, σ) w).

Module Storage.

Definition methods : list string :=
  ["__init__"; "__getattr__"; "__setattr__"; "__delattr__";
   "__getitem__"; "__setitem__"; "_load_db"; "save"; "load"].

(** [Storage.__dict__] when the class statement has run: the methods,
    and what every class gets.  The class has no docstring. *)
Definition class_dict : dict :=
  list_to_map
    ((λ m, (m, VFunc m)) <$> methods) ∪
  list_to_map
    [("__module__", VStr "pyupdater.utils.storage");
     ("__doc__", VNone);
     ("__dict__", VDescr "__dict__");
     ("__weakref__", VDescr "__weakref__")].

(** [setattr(Storage, name, value)].  Names that the metaclass manages
    itself ([__name__], [__bases__], ...) are outside this model. *)
Definition set_class_attr (name : string) (v : value) : M World unit :=
  modify (set_Storage_dict (insert name v)).

(** [self.name]: the class attribute, and [None] through
    [__getattr__] when there is none. *)
Definition getattr (name : string) : M World value :=
  gets (λ w, default VNone (Storage_dict w !! name)).

(** A method call [self.name(...)]: the name is looked up in the class
    namespace, where a stored key of the same name replaces the
    function. *)
Definition invoke {A} (name : string) (body : M World A) : M World A :=
  f <- getattr name ;;
  match f with
  | VFunc g => if bool_decide (g = name) then body else raise TypeError
  | _ => raise TypeError
  end.

(** [self.name = v] *)
Definition __setattr__ (name : string) (v : value) : M World unit :=
  invoke "__setattr__" (set_class_attr name v).

(** [self.db] used as a [JSONStore]; the use of any other object in its
    place fails. *)
Definition db {A} (m : M StoreState A) : M World A :=
  d <- getattr "db" ;;
  match d with
  | VStore => on_store m
  | _ => raise TypeError
  end.

Definition _load_db : M World unit :=
  invoke "_load_db"
    (items <- db JSONStore.__iter__ ;;
     for_each items (λ kv, set_class_attr kv.1 kv.2)).

Section with_settings.
Context `{Settings}.

(** [Storage(refresh)].  The directory test and [os.mkdir] have no
    counterpart: directories are not modelled. *)
Definition __init__ (refresh : bool) : M World unit :=
  invoke "__init__"
    (here <- gets cwd ;;
     let config_dir := path_join here [CONFIG_DATA_FOLDER] in
     __setattr__ "config_dir" (VStr config_dir) ;;
     let filename := path_join config_dir [CONFIG_FILE_USER] in
     __setattr__ "filename" (VStr filename) ;;
     modify (set_store (set_this (λ _, JSONStore.__init__ filename None))) ;;
     __setattr__ "db" VStore ;;
     __setattr__ "_loaded_db" (VBool false) ;;
     when refresh
       (__setattr__ "_loaded_db" (VBool true) ;;
        _load_db)).

End with_settings.

Definition save (key : string) (v : value) : M World unit :=
  invoke "save"
    (loaded <- getattr "_loaded_db" ;;
     when (is_False loaded) _load_db ;;
     set_class_attr key v ;;
     cls <- gets Storage_dict ;;
     for_each (map_to_list cls)
              (λ kv, db (JSONStore.__setitem__ kv.1 kv.2)) ;;
     db (JSONStore.sync None false) ;;
     ret tt).

Definition load (key : string) : M World value :=
  invoke "load"
    (loaded <- getattr "_loaded_db" ;;
     when (is_False loaded) _load_db ;;
     getattr key).

(** [self[name]]: the class attribute; the instance has no
    [__dict__] entries to fall back on. *)
Definition __getitem__ (name : string) : M World value :=
  invoke "__getitem__"
    (cls <- gets Storage_dict ;;
     match cls !! name with
     | Some v => ret v
     | None => raise (KeyError name)
     end).

(** [self[name] = value] *)
Definition __setitem__ (name : string) (v : value) : M World unit :=
  invoke "__setitem__" (set_class_attr name v).

(** [del self.name] *)
Definition __delattr__ (name : string) : M World unit :=
  invoke "__delattr__" (raise (AttributeError "Cannot delete attributes!")).

End Storage.

(** A new process over the same disk: the class namespace is the one of
    the class statement and no store object exists yet. *)
Definition new_process (w : World) : World :=
  mkWorld (cwd w)
          (mkStoreState (files (store w)) (writes (store w))
                        (JSONStore.__init__ "" None))
          Storage.class_dict.

(** ** config.py: class Config

    [Config] is a [dict] whose attribute namespace is the dict itself
    ([self.__dict__ = self]); an object is its mapping. *)

Module Config.

(** Methods that the code reaches through attribute lookup on [self];
    an item of the same name is found first. *)
Definition methods : list string :=
  ["__postinit__"; "update"; "items"; "from_object"; "_load_config";
   "save_config"; "_write_config_py"].

(** [self.name] for a name that is no attribute of the class *)
Definition getattr {Σ} (self : dict) (name : string) : M Σ value :=
  match self !! name with
  | Some v => ret v
  | None => raise (AttributeError name)
  end.

(** [self[name]] *)
Definition __getitem__ {Σ} (self : dict) (name : string) : M Σ value :=
  match self !! name with
  | Some v => ret v
  | None => raise (KeyError name)
  end.

(** [self.name = v] and [self[name] = v] on the mapping of an instance
    whose attribute namespace is the mapping, for a name that is no
    data descriptor of the type; [ConfigObject] below tells the two
    namespaces apart, and [init_refines] relates the two models. *)
Definition setattr (self : dict) (name : string) (v : value) : dict :=
  <[name := v]> self.
Definition __setitem__ (self : dict) (name : string) (v : value) : dict :=
  <[name := v]> self.

(** A method of the class reached as [self.name]: an item of that name
    is found in its place, and calling it fails. *)
Definition method {Σ A} (self : dict) (name : string) (body : M Σ A) : M Σ A :=
  match self !! name with
  | None => body
  | Some _ => raise TypeError
  end.

(** [hasattr(self, name)] for a name that is no attribute of the class *)
Definition hasattr (self : dict) (name : string) : bool :=
  bool_decide (is_Some (self !! name)).

(** [for k, v in d.items(): self[k] = v] *)
Definition set_items (d : dict) (self : dict) : dict :=
  foldl (λ acc kv, <[kv.1 := kv.2]> acc) self (map_to_list d).

(** [for k, v in self.items(): if k.isupper(): out[k] = v] *)
Definition upper_items (self : dict) : dict :=
  foldl (λ out kv, if isupper kv.1 then <[kv.1 := kv.2]> out else out)
        ∅ (map_to_list self).

(** A method of the [Storage] instance held in [self.db]; no other
    value of the field has the method. *)
Definition on_db {A} (db : value) (name : string) (m : M World A) : M World A :=
  match db with
  | VStorage => m
  | _ => raise (AttributeError name)
  end.

(** [v[key]] for a string key. *)
Definition subscript (v : value) (key : string) : M World value :=
  match v with
  | VDict d =>
      match d !! key with
      | Some x => ret x
      | None => raise (KeyError key)
      end
  | VStore => Storage.db (JSONStore.__getitem__ key)
  | VStorage => Storage.__getitem__ key
  | _ => raise TypeError
  end.

(** The arguments [*self.CLIENT_CONFIG_PATH] of [os.path.join] when the
    field is a list of strings; other values are not taken as paths. *)
Definition segments (v : value) : option (list string) :=
  match v with
  | VList l => mapM (λ x, match x with VStr s => Some s | _ => None end) l
  | _ => None
  end.

Definition client_config_lines (self : dict) (public_key : value)
  : list attr_line :=
  (if hasattr self "APP_NAME"
   then [QuotedAttr "APP_NAME" (default VNone (self !! "APP_NAME"))] else []) ++
  (if hasattr self "COMPANY_NAME"
   then [QuotedAttr "COMPANY_NAME" (default VNone (self !! "COMPANY_NAME"))] else []) ++
  (if hasattr self "UPDATE_URLS"
   then [PlainAttr "UPDATE_URLS" (default VNone (self !! "UPDATE_URLS"))] else []) ++
  (if hasattr self "PUBLIC_KEY"
   then [QuotedAttr "PUBLIC_KEY" public_key] else []) ++
  (if hasattr self "MAX_DOWNLOAD_RETRIES"
   then [PlainAttr "MAX_DOWNLOAD_RETRIES"
                   (default VNone (self !! "MAX_DOWNLOAD_RETRIES"))] else []).

(** [from_object(self, obj)]; the object is given by its attributes,
    [dir(obj)] being their names. *)
Definition from_object {Σ} (self : dict) (obj : dict) : M Σ dict :=
  method self "from_object"
    (client <- getattr self "client" ;;
     if is_False client
     then raise (ConfigError "This object is not configured for client use")
     else ret (foldl (λ acc kv, if isupper kv.1 then <[kv.1 := kv.2]> acc else acc)
                     self (map_to_list obj))).

Section with_settings.
Context `{Settings}.

Definition config_template : dict :=
  list_to_map
    [("APP_NAME", VStr GENERIC_APP_NAME);
     ("CLIENT_CONFIG_PATH", VList (VStr <$> DEFAULT_CLIENT_CONFIG));
     ("COMPANY_NAME", VStr GENERIC_APP_NAME);
     ("PLUGIN_CONFIGS", VDict ∅);
     ("UPDATE_PATCHES", VBool true);
     ("MAX_DOWNLOAD_RETRIES", VInt 3)].

Definition __postinit__ {Σ} (self : dict) : M Σ dict :=
  method self "__postinit__"
    (method self "update" (ret (config_template ∪ self))).

Definition _load_config (self : dict) : M World dict :=
  method self "_load_config"
    (db <- getattr self "db" ;;
     if is_None db
     then raise (ConfigError "This object is configured with no file access")
     else
       config_data <- on_db db "load" (Storage.load CONFIG_DB_KEY_APP_CONFIG) ;;
       items <- match config_data with
                | VNone => ret ∅
                | VDict d => ret d
                | _ => raise (AttributeError "items")
                end ;;
       let self := set_items items self in
       here <- gets cwd ;;
       ret (setattr self "DATA_DIR" (VStr here))).

Definition _write_config_py (self : dict) : M World unit :=
  method self "_write_config_py"
    (db <- getattr self "db" ;;
     keypack_data <- (if is_None db then ret VNone
                      else on_db db "load" (Storage.load CONFIG_DB_KEY_KEYPACK)) ;;
     public_key <- (if is_None keypack_data then ret VNone
                    else client <- subscript keypack_data "client" ;;
                         subscript client "offline_public") ;;
     ccp <- getattr self "CLIENT_CONFIG_PATH" ;;
     match segments ccp with
     | None => raise TypeError
     | Some segs =>
         here <- gets cwd ;;
         let filename := path_join here segs in
         modify (set_store (open_w filename)) ;;
         modify (set_store (write_file filename
                   (FClientConfig (client_config_lines self public_key))))
     end).

Definition save_config (self : dict) : M World unit :=
  method self "save_config"
    (db <- getattr self "db" ;;
     if is_None db
     then raise (ConfigError "This object is configured with no file access")
     else
       method self "items"
         (let out := upper_items self in
          on_db db "save" (Storage.save CONFIG_DB_KEY_APP_CONFIG (VDict out)) ;;
          _write_config_py self)).

(** The constructor, with positional and keyword arguments; [args] is
    the optional mapping argument of [dict]. *)
Definition __init__ (args kwargs : dict) : M World dict :=
  let self := kwargs ∪ args in
  self <- __postinit__ self ;;
  let self := setattr self "load_config"
                (default (VBool false) (kwargs !! "load_config")) in
  let self := setattr self "client"
                (default (VBool false) (kwargs !! "client")) in
  client <- getattr self "client" ;;
  if is_False client then
    Storage.__init__ true ;;
    let self := setattr self "db" VStorage in
    load_config <- getattr self "load_config" ;;
    if is_True load_config then _load_config self else ret self
  else ret (setattr self "db" VNone).

End with_settings.

End Config.

(** ** config.py: the two namespaces of a [Config] instance

    A [Config] instance is a [dict], with its items, and like every
    instance of a class written in Python it has an attribute
    namespace, its [__dict__].  They are two dicts until the
    constructor makes the second be the first ([self.__dict__ = self]).
    [namespace] is [Some d] for an instance whose attribute namespace
    is a dict [d] of its own, and [None] for one whose attribute
    namespace is the mapping itself.  The functions of [Config] above
    work on the mapping of an instance of the second kind. *)

Record ConfigObject := mkConfigObject {
  mapping : dict;
  namespace : option dict;
}.

Module ConfigObject.

(** The data descriptors that the type has for its instances, from
    [object] and from the class statement: attribute access to these
    names goes to the descriptor and never to the namespace. *)
Definition data_descriptors : list string :=
  ["__dict__"; "__class__"; "__weakref__"].

(** The dict that attribute access reads and writes. *)
Definition instance_dict (self : ConfigObject) : dict :=
  default (mapping self) (namespace self).

(** [dict.__init__] with the arguments of the constructor; the new
    instance has an empty namespace of its own. *)
Definition new (args kwargs : dict) : ConfigObject :=
  mkConfigObject (kwargs ∪ args) (Some ∅).

(** [self.__dict__ = self] *)
Definition share_namespace (self : ConfigObject) : ConfigObject :=
  mkConfigObject (mapping self) None.

(** [self[name]] *)
Definition __getitem__ {Σ} (self : ConfigObject) (name : string) : M Σ value :=
  match mapping self !! name with
  | Some v => ret v
  | None => raise (KeyError name)
  end.

(** [self[name] = v] *)
Definition __setitem__ (self : ConfigObject) (name : string) (v : value)
  : ConfigObject :=
  mkConfigObject (<[name := v]> (mapping self)) (namespace self).

(** The store of [object.__setattr__] into the dict of the instance. *)
Definition set_instance_dict (name : string) (v : value) (self : ConfigObject)
  : ConfigObject :=
  match namespace self with
  | None => mkConfigObject (<[name := v]> (mapping self)) None
  | Some d => mkConfigObject (mapping self) (Some (<[name := v]> d))
  end.

(** [self.name = v]: a data descriptor of the type takes the
    assignment; any other name is stored in the dict of the instance.
    [__dict__] accepts a dict, which becomes the namespace; [__class__]
    accepts classes only, which are no values here; [__weakref__] is
    not writable. *)
Definition setattr {Σ} (self : ConfigObject) (name : string) (v : value)
  : M Σ ConfigObject :=
  if bool_decide (name = "__dict__") then
    match v with
    | VDict d => ret (mkConfigObject (mapping self) (Some d))
    | _ => raise TypeError
    end
  else if bool_decide (name = "__class__") then raise TypeError
  else if bool_decide (name = "__weakref__")
  then raise (AttributeError "__weakref__")
  else ret (set_instance_dict name v self).

(** A method of the class reached as [self.name]: an entry of the dict
    of the instance is found in its place, and calling it fails. *)
Definition method {Σ A} (self : ConfigObject) (name : string) (body : M Σ A)
  : M Σ A :=
  match instance_dict self !! name with
  | None => body
  | Some _ => raise TypeError
  end.

Section with_type.
Context `{Settings}.

(** What the lookup of a name through [Config], [dict] and [object]
    finds, the data descriptors apart: their functions and other class
    attributes.  It depends on the version of Python. *)
Variable type_namespace : dict.

(** [self.name]: a data descriptor of the type first, then the dict of
    the instance, then the type.  The class object stands as the
    callable [Config]; no weak reference is held. *)
Definition getattr {Σ} (self : ConfigObject) (name : string) : M Σ value :=
  if bool_decide (name = "__dict__") then ret (VDict (instance_dict self))
  else if bool_decide (name = "__class__") then ret (VFunc "Config")
  else if bool_decide (name = "__weakref__") then ret VNone
  else match instance_dict self !! name with
       | Some v => ret v
       | None =>
           match type_namespace !! name with
           | Some v => ret v
           | None => raise (AttributeError name)
           end
       end.

(** [self.update(config_template)] is [dict.update]: it assigns items. *)
Definition __postinit__ {Σ} (self : ConfigObject) : M Σ ConfigObject :=
  method self "__postinit__"
    (method self "update"
       (ret (mkConfigObject (Config.config_template ∪ mapping self)
                            (namespace self)))).

Definition _load_config (self : ConfigObject) : M World ConfigObject :=
  method self "_load_config"
    (db <- getattr self "db" ;;
     if is_None db
     then raise (ConfigError "This object is configured with no file access")
     else
       config_data <- Config.on_db db "load"
                        (Storage.load CONFIG_DB_KEY_APP_CONFIG) ;;
       items <- match config_data with
                | VNone => ret ∅
                | VDict d => ret d
                | _ => raise (AttributeError "items")
                end ;;
       let self := foldl (λ acc kv, __setitem__ acc kv.1 kv.2) self
                         (map_to_list items) in
       here <- gets cwd ;;
       setattr self "DATA_DIR" (VStr here)).

(** The constructor, statement by statement. *)
Definition __init__ (args kwargs : dict) : M World ConfigObject :=
  let self := new args kwargs in
  let self := share_namespace self in
  self <- __postinit__ self ;;
  self <- setattr self "load_config"
            (default (VBool false) (kwargs !! "load_config")) ;;
  self <- setattr self "client"
            (default (VBool false) (kwargs !! "client")) ;;
  client <- getattr self "client" ;;
  if is_False client then
    Storage.__init__ true ;;
    self <- setattr self "db" VStorage ;;
    load_config <- getattr self "load_config" ;;
    if is_True load_config then _load_config self else ret self
  else setattr self "db" VNone.

End with_type.

End ConfigObject.

(** ** Notions used in the statements *)

(** The instance whose mapping is [d] and whose namespace is the
    mapping. *)
Definition shared (r : result dict) : result ConfigObject :=
  match r with
  | Ok d => Ok (mkConfigObject d None)
  | Raise e => Raise e
  end.
Definition shared_outcome {Σ} (p : result dict * Σ) : result ConfigObject * Σ :=
  (shared p.1, p.2).

(** The JSON object in the file at [p], empty when the file is missing
    or is not such a document. *)
Definition disk_doc (fs : gmap string file) (p : string) : dict :=
  match fs !! p with
  | Some (FJson doc) => doc
  | _ => ∅
  end.

(** The entries that the lazy load of the store would bring in. *)
Definition pending (σ : StoreState) : dict :=
  if _data_from_disk_loaded (this σ) then ∅
  else disk_doc (files σ) (path (this σ)).

(** The operations of a [JSONStore] as seen by a caller, and the runs of
    a caller that handles every exception. *)
Inductive op :=
| OGet (key : string)
| OSet (key : string) (v : value)
| ODel (key : string)
| OLen
| OIter
| OCopy
| OKeys
| OSync (kw : option dict) (force : bool).

Inductive answer :=
| AValue (v : value)
| AUnit
| ANat (n : nat)
| AItems (l : list (string * value))
| ADict (d : dict)
| AKeys (l : list string)
| ABool (b : bool).

Definition exec (o : op) : M StoreState answer :=
  match o with
  | OGet k => v <- JSONStore.__getitem__ k ;; ret (AValue v)
  | OSet k v => JSONStore.__setitem__ k v ;; ret AUnit
  | ODel k => JSONStore.__delitem__ k ;; ret AUnit
  | OLen => n <- JSONStore.__len__ ;; ret (ANat n)
  | OIter => l <- JSONStore.__iter__ ;; ret (AItems l)
  | OCopy => d <- JSONStore.copy ;; ret (ADict d)
  | OKeys => l <- JSONStore.keys ;; ret (AKeys l)
  | OSync kw force => b <- JSONStore.sync kw force ;; ret (ABool b)
  end.

Fixpoint run (ops : list op) (σ : StoreState) : StoreState :=
  match ops with
  | [] => σ
  | o :: ops => run ops (exec o σ).2
  end.

(** A [set] or [delete] that went through. *)
Definition mutates (o : op) (r : result answer) : bool :=
  match o, r with
  | OSet _ _, Ok _ | ODel _, Ok _ => true
  | _, _ => false
  end.

(** A [sync] that wrote the file and returned. *)
Definition completes_write (o : op) (r : result answer) : bool :=
  match o, r with
  | OSync _ _, Ok (ABool true) => true
  | _, _ => false
  end.

(** A [sync] called with options other than the last synced ones,
    which did not complete. *)
Definition fails_with_new_options (o : op) (r : result answer)
    (σ : StoreState) : bool :=
  match o, r with
  | OSync kw _, Raise _ =>
      differs (_synced_json_kw (this σ)) (dict_or kw (json_kw (this σ)))
  | _, _ => false
  end.

(** "The entries have been mutated by set or delete since the last
    successful sync", along a run that starts in [σ]. *)
Fixpoint mutated_since_sync (ops : list op) (σ : StoreState) (acc : bool) : bool :=
  match ops with
  | [] => acc
  | o :: ops =>
      let (r, σ') := exec o σ in
      mutated_since_sync ops σ'
        (if completes_write o r then false else acc || mutates o r)
  end.

(** The same, counting also the entries brought in by the lazy load and
    the syncs with new options that did not complete. *)
Fixpoint touched_since_sync (ops : list op) (σ : StoreState) (acc : bool) : bool :=
  match ops with
  | [] => acc
  | o :: ops =>
      let (r, σ') := exec o σ in
      touched_since_sync ops σ'
        (if completes_write o r then false
         else acc || mutates o r || nonempty (pending σ)
              || fails_with_new_options o r σ)
  end.

(** The store of a process that has gone through its lazy load and
    found nothing. *)
Definition started_empty (σ : StoreState) : StoreState :=
  set_this (set__data_from_disk_loaded true) σ.

(** A character of the name is a lower-case letter. *)
Definition has_lower (s : string) : bool := existsb is_lower_char (chars s).

(** The store once its lazy-load guard has run. *)
Definition loaded_store (σ : StoreState) : StoreState :=
  mkStoreState (files σ) (writes σ)
    (mkJSONStore (path (this σ)) (json_kw (this σ))
                 (pending σ ∪ _data (this σ))
                 (_synced_json_kw (this σ))
                 (_needs_sync (this σ) || nonempty (pending σ))
                 true).

(** The class attribute [m] is the method [m] of the class statement. *)
Definition is_method (cls : dict) (m : string) : bool :=
  match cls !! m with
  | Some (VFunc g) => bool_decide (g = m)
  | _ => false
  end.

(** No stored key has replaced a method of [Storage]. *)
Definition own_methods (cls : dict) : bool :=
  forallb (is_method cls) Storage.methods.

(** The class attribute [db] is the store. *)
Definition has_store (cls : dict) : bool :=
  match cls !! "db" with
  | Some VStore => true
  | _ => false
  end.

(** [self._loaded_db is False] *)
Definition reloads (cls : dict) : bool :=
  is_False (default VNone (cls !! "_loaded_db")).

(** The process after [_load_db] has run. *)
Definition db_loaded (w : World) : World :=
  mkWorld (cwd w) (loaded_store (store w))
          (_data (this (loaded_store (store w))) ∪ Storage_dict w).

(** [Storage.__dict__] once [save(key, v)] has loaded the registry, if it
    had to, and bound the key. *)
Definition registry_for_save (key : string) (v : value) (w : World) : dict :=
  <[key := v]> (if reloads (Storage_dict w) then Storage_dict (db_loaded w)
                else Storage_dict w).

(** The entries of the store once [save(key, v)] has copied the whole
    registry into it. *)
Definition entries_for_save (key : string) (v : value) (w : World) : dict :=
  registry_for_save key v w ∪ _data (this (loaded_store (store w))).

(** What [save(key, v)] needs in order to return: its own methods, the
    store, and entries that [json.dumps] accepts. *)
Definition can_save (key : string) (v : value) (w : World) : bool :=
  is_method (Storage_dict w) "save" &&
  (negb (reloads (Storage_dict w)) ||
   is_method (Storage_dict w) "_load_db" && has_store (Storage_dict w)) &&
  has_store (registry_for_save key v w) &&
  json_ok (VDict (JSONStore._sanatize (entries_for_save key v w))).

(** The process after a [save(key, v)] that returned. *)
Definition saved (key : string) (v : value) (w : World) : World :=
  let p := path (this (store w)) in
  mkWorld (cwd w)
    (mkStoreState
       (<[p := FJson (JSONStore._sanatize (entries_for_save key v w))]>
          (files (store w)))
       (p :: writes (store w))
       (mkJSONStore p (json_kw (this (store w))) (entries_for_save key v w)
                    (Some (json_kw (this (store w)))) false true))
    (registry_for_save key v w).


(** The file that [_write_config_py] writes, when the configured path
    is a list of strings. *)
Definition client_config_file (self : dict) (here : string) : option string :=
  ccp ← self !! "CLIENT_CONFIG_PATH";
  segs ← Config.segments ccp;
  Some (path_join here segs).

(** The file that a [Storage] built in the directory [here] opens. *)
Definition registry_file `{Settings} (here : string) : string :=
  path_join (path_join here [CONFIG_DATA_FOLDER]) [CONFIG_FILE_USER].

(** The process after [Storage(refresh)]. *)
Definition constructed `{Settings} (refresh : bool) (w : World) : World :=
  let cls :=
    <["_loaded_db" := VBool refresh]>
      (<["db" := VStore]>
         (<["filename" := VStr (registry_file (cwd w))]>
            (<["config_dir" := VStr (path_join (cwd w) [CONFIG_DATA_FOLDER])]>
               (Storage_dict w)))) in
  let w' :=
    mkWorld (cwd w)
      (mkStoreState (files (store w)) (writes (store w))
                    (JSONStore.__init__ (registry_file (cwd w)) None))
      cls in
  if refresh then db_loaded w' else w'.

(** The store is loaded and holds every attribute of the registry, as it
    does after a [save]. *)
Definition settled (w : World) : Prop :=
  _data_from_disk_loaded (this (store w)) = true ∧
  Storage_dict w ⊆ _data (this (store w)).

(** What a [load] may change: nothing on disk; in a settled process, not
    the store either, and the registry at most by taking the entries of
    the store. *)
Definition load_frame (w w' : World) : Prop :=
  cwd w' = cwd w ∧
  files (store w') = files (store w) ∧
  writes (store w') = writes (store w) ∧
  (settled w →
   this (store w') = this (store w) ∧
   (Storage_dict w' = Storage_dict w ∨
    Storage_dict w' = _data (this (store w)))).

(** ** Concrete states used as examples *)

(** A choice of the constants, for the examples. *)
Definition example_settings : Settings := {|
  CONFIG_DATA_FOLDER := ".pyupdater";
  CONFIG_FILE_USER := "config.pyu";
  CONFIG_DB_KEY_APP_CONFIG := "app_config";
  CONFIG_DB_KEY_KEYPACK := "keypack";
  GENERIC_APP_NAME := "PyUpdater App";
  DEFAULT_CLIENT_CONFIG := ["client_config.py"];
|}.

(** A process that starts in the directory [/repo] of an empty disk. *)
Definition first_process : World :=
  mkWorld "/repo" (mkStoreState ∅ [] (JSONStore.__init__ "" None))
          Storage.class_dict.

Definition fresh_store_on_empty_disk : StoreState :=
  mkStoreState ∅ [] (JSONStore.__init__ "/repo/.pyupdater/config.pyu" None).


Definition after_first_save : World :=
  ((@Storage.__init__ example_settings true ;;
    Storage.save "X" (VInt 1)) first_process).2.

(** A configuration object with the default fields, built in the first
    process, and the process after its construction. *)
Definition default_config : dict :=
  match (@Config.__init__ example_settings ∅ ∅ first_process).1 with
  | Ok self => self
  | Raise _ => ∅
  end.
Definition after_default_config : World :=
  (@Config.__init__ example_settings ∅ ∅ first_process).2.

(** The same process once a key-material record without the [client]
    entry has been saved. *)
Definition after_empty_keypack : World :=
  (Storage.save "keypack" (VDict ∅) after_default_config).2.

(** The default object with two fields set by the caller, and the
    process after it has been saved. *)
Definition acme_config : dict :=
  <["APP_NAME" := VStr "Acme"]> (<["DATA_DIR" := VStr "/old"]> default_config).
Definition after_acme_save : World :=
  (@Config.save_config example_settings acme_config after_default_config).2.

(** A store that holds an entry [json.dumps] rejects. *)
Definition store_with_descriptor : StoreState :=
  (JSONStore.__setitem__ "k" (VDescr "x") fresh_store_on_empty_disk).2.

(** A later process over the disk of [after_first_save], with a
    registry built with [refresh=False]. *)
Definition deferred_process : World :=
  (@Storage.__init__ example_settings false (new_process after_first_save)).2.

(** The functions that [Config] defines or uses on itself, as an
    example of what the type binds, and the instance that [Config()]
    builds in the first process. *)
Definition example_type_namespace : dict :=
  list_to_map ((λ m, (m, VFunc m)) <$> ("__init__" :: Config.methods)).
Definition default_object : ConfigObject :=
  match (@ConfigObject.__init__ example_settings example_type_namespace ∅ ∅
           first_process).1 with
  | Ok self => self
  | Raise _ => mkConfigObject ∅ None
  end.

(** An object built for client use in the first process. *)
Definition client_config : dict :=
  match (@Config.__init__ example_settings ∅ {["client" := VBool true]}
           first_process).1 with
  | Ok self => self
  | Raise _ => ∅
  end.

(** The default object with one default field removed by the caller,
    and the process after it has been saved. *)
Definition pruned_config : dict := delete "COMPANY_NAME" default_config.
Definition after_pruned_save : World :=
  (@Config.save_config example_settings pruned_config after_default_config).2.

(** An object built with a value passed for a default field. *)
Definition named_config : dict :=
  match (@Config.__init__ example_settings ∅ {["APP_NAME" := VStr "Mine"]}
           first_process).1 with
  | Ok self => self
  | Raise _ => ∅
  end.

(** An object with a [PUBLIC_KEY] of its own, and a process whose
    registry holds a key record. *)
Definition keyed_config : dict := <["PUBLIC_KEY" := VStr "mine"]> default_config.
Definition example_keypack : dict :=
  {["client" := VDict {["offline_public" := VStr "KEY"]}]}.
Definition after_keypack : World :=
  (Storage.save "keypack" (VDict example_keypack) after_default_config).2.

(** The name that a line of the client configuration file assigns, and
    the names in the order of the [hasattr] tests of [_write_config_py]. *)
Definition attr_name (l : attr_line) : string :=
  match l with QuotedAttr n _ | PlainAttr n _ => n end.
Definition client_config_fields : list string :=
  ["APP_NAME"; "COMPANY_NAME"; "UPDATE_URLS"; "PUBLIC_KEY";
   "MAX_DOWNLOAD_RETRIES"].

(** The fields that the constructor sets itself. *)
Definition bookkeeping_fields : list string := ["load_config"; "client"; "db"].

(** * Properties *)

(** ** Values *)

Lemma value_size_elem (l : list value) x :
  x ∈ l → value_size x < value_size (VList l).
Proof. induction 1; simpl in *; lia. Qed.

Lemma value_size_entry (d : dict) k x :
  d !! k = Some x → value_size x < value_size (VDict d).
Proof.
  intros Hk. simpl.
  rewrite (map_fold_delete_L _ _ k x d); [lia| |done].
  intros. lia.
Qed.

(** Induction over values, through lists and dictionaries. *)
Lemma value_nested_ind (P : value → Prop) :
  P VNone → (∀ b, P (VBool b)) → (∀ z, P (VInt z)) → (∀ s, P (VStr s)) →
  (∀ l, Forall P l → P (VList l)) →
  (∀ d, map_Forall (λ _, P) d → P (VDict d)) →
  (∀ n, P (VFunc n)) → (∀ n, P (VDescr n)) → P VStore → P VStorage →
  ∀ v, P v.
Proof.
  intros HN HB HI HS HL HD HF HG HT HU v.
  remember (value_size v) as m eqn:Hm. revert v Hm.
  induction (lt_wf m) as [m _ IH]. intros v ->.
  destruct v; auto.
  - apply HL, Forall_forall. intros x Hx.
    eapply IH; [|done]. by apply value_size_elem.
  - apply HD. intros k x Hk.
    eapply IH; [|done]. by eapply value_size_entry.
Qed.

Lemma all_fold_true {A} (f : string → A → bool) (d : gmap string A) :
  map_fold (λ k x acc, f k x && acc) true d = true
  ↔ map_Forall (λ k x, f k x = true) d.
Proof.
  induction d as [|k x d Hk Hfold IH] using map_first_key_ind.
  - rewrite map_fold_empty. split; [intros _; apply map_Forall_empty|done].
  - rewrite map_fold_insert_first_key by done.
    rewrite map_Forall_insert by done. by rewrite andb_true_iff, IH.
Qed.

Lemma value_eqb_eq v : ∀ w, value_eqb v w = true ↔ v = w.
Proof.
  induction v as [| | | |l IH|d IH| | | |] using value_nested_ind;
    intros w; destruct w; simpl;
    try (split; [done|congruence]);
    try (rewrite bool_decide_eq_true; split; congruence).
  - revert l0. induction IH as [|x l Hx _ IHl]; intros [|y m];
      try (split; [done|congruence]).
    rewrite andb_true_iff, Hx. specialize (IHl m). split.
    + intros [-> H2]. apply IHl in H2. congruence.
    + intros [= -> ->]. split; [done|]. by apply IHl.
  - rewrite andb_true_iff, bool_decide_eq_true, all_fold_true. split.
    + intros [Hdom Hall]. f_equal. apply map_eq. intros k.
      destruct (d !! k) as [x|] eqn:Hx.
      * specialize (Hall k x Hx). simpl in Hall.
        destruct (d0 !! k) as [y|] eqn:Hy; [|done].
        f_equal. by apply (IH k x Hx).
      * symmetry. apply not_elem_of_dom. rewrite <- Hdom.
        by apply not_elem_of_dom.
    + intros [= <-]. split; [done|]. intros k x Hx. simpl.
      rewrite Hx. by apply (IH k x Hx).
Qed.

Lemma dict_eqb_refl (d : dict) : dict_eqb d d = true.
Proof. by apply value_eqb_eq. Qed.

Lemma differs_same (d : dict) : differs (Some d) d = false.
Proof. simpl. by rewrite dict_eqb_refl. Qed.

Lemma json_ok_dict (d : dict) :
  json_ok (VDict d) = true ↔ map_Forall (λ _ x, json_ok x = true) d.
Proof. simpl. apply (all_fold_true (λ _ x, json_ok x)). Qed.

Lemma nonempty_false (d : dict) : nonempty d = false ↔ d = ∅.
Proof.
  unfold nonempty. destruct (map_to_list d) eqn:E.
  - split; [|done]. intros _. by apply map_to_list_empty_iff.
  - split; [done|]. intros ->. by rewrite map_to_list_empty in E.
Qed.

Lemma nonempty_empty : nonempty ∅ = false.
Proof. by apply nonempty_false. Qed.

(** ** Loops over the items of a dictionary *)

Lemma foldl_insert_list (l : list (string * value)) (m : dict) :
  NoDup (l.*1) →
  foldl (λ acc kv, <[kv.1 := kv.2]> acc) m l = list_to_map l ∪ m.
Proof.
  revert m. induction l as [|[k v] l IH]; intros m Hnd; simpl.
  - by rewrite (left_id_L ∅ (∪)).
  - inversion_clear Hnd as [|?? Hk Hnd'].
    rewrite IH by done.
    rewrite <- insert_union_l.
    rewrite insert_union_r; [done|].
    by apply not_elem_of_list_to_map_1.
Qed.

Lemma foldl_insert_items (d m : dict) :
  foldl (λ acc kv, <[kv.1 := kv.2]> acc) m (map_to_list d) = d ∪ m.
Proof.
  rewrite foldl_insert_list by apply NoDup_fst_map_to_list.
  by rewrite list_to_map_to_list.
Qed.

Lemma set_items_union (d self : dict) : Config.set_items d self = d ∪ self.
Proof. apply foldl_insert_items. Qed.

Lemma foldl_insert_if_list (P : string → bool) (l : list (string * value)) (m : dict) :
  NoDup (l.*1) →
  foldl (λ acc kv, if P kv.1 then <[kv.1 := kv.2]> acc else acc) m l
  = filter (λ kv, P kv.1 = true) (list_to_map l : dict) ∪ m.
Proof.
  revert m. induction l as [|[k v] l IH]; intros m Hnd; simpl.
  - by rewrite map_filter_empty, (left_id_L ∅ (∪)).
  - inversion_clear Hnd as [|?? Hk Hnd'].
    rewrite IH by done.
    assert (list_to_map l !! k = None) as Hnone
      by by apply not_elem_of_list_to_map_1.
    destruct (P k) eqn:HP.
    + rewrite map_filter_insert_True by done.
      rewrite <- insert_union_l. rewrite insert_union_r; [done|].
      by apply map_lookup_filter_None_2; left.
    + rewrite map_filter_insert_False by (simpl; congruence).
      by rewrite delete_id.
Qed.

Lemma upper_items_filter (self : dict) :
  Config.upper_items self = filter (λ kv, isupper kv.1 = true) self.
Proof.
  unfold Config.upper_items.
  rewrite (foldl_insert_if_list isupper) by apply NoDup_fst_map_to_list.
  by rewrite list_to_map_to_list, (right_id_L ∅ (∪)).
Qed.

Lemma upper_items_lookup (self : dict) k v :
  Config.upper_items self !! k = Some v ↔ self !! k = Some v ∧ isupper k = true.
Proof. rewrite upper_items_filter. apply map_lookup_filter_Some. Qed.

Lemma merge_upper_lookup (self obj : dict) k :
  foldl (λ acc kv, if isupper kv.1 then <[kv.1 := kv.2]> acc else acc)
        self (map_to_list obj) !! k
  = if isupper k then
      match obj !! k with Some v => Some v | None => self !! k end
    else self !! k.
Proof.
  rewrite (foldl_insert_if_list isupper) by apply NoDup_fst_map_to_list.
  rewrite list_to_map_to_list, lookup_union.
  destruct (isupper k) eqn:Hk.
  - destruct (obj !! k) as [v|] eqn:Ho.
    + rewrite (map_lookup_filter_Some_2 _ _ k v) by done.
      by destruct (self !! k).
    + rewrite map_lookup_filter_None_2 by (by left).
      by rewrite (left_id_L None _).
  - rewrite map_lookup_filter_None_2; [by rewrite (left_id_L None _)|].
    right. intros v _. simpl. congruence.
Qed.

Lemma sanatize_lookup (data : dict) k v :
  JSONStore._sanatize data !! k = Some v
  ↔ data !! k = Some v ∧ JSONStore.kept k v = true.
Proof. apply map_lookup_filter_Some. Qed.

(** ** The document store *)

Arguments json_ok : simpl never.
Arguments differs : simpl never.
Arguments dict_or : simpl never.
Arguments nonempty : simpl never.
Arguments pending : simpl never.
Arguments path_join : simpl never.
Arguments isupper : simpl never.
Arguments JSONStore._sanatize : simpl never.

Ltac unfold_monad :=
  unfold bind, ret, gets, modify, raise, when, try_except in *.
Ltac unfold_setters :=
  unfold set_this, set__data, set__needs_sync, set__synced_json_kw,
    set__data_from_disk_loaded, open_w, write_file, set_store,
    set_Storage_dict in *.

Lemma for_each_store_item (l : list (string * value)) fs wr p kw d sk n ld :
  for_each l (λ kv, JSONStore.store_item kv.1 kv.2)
           (mkStoreState fs wr (mkJSONStore p kw d sk n ld))
  = (Ok tt,
     mkStoreState fs wr
       (mkJSONStore p kw (foldl (λ acc kv, <[kv.1 := kv.2]> acc) d l) sk
                    (n || match l with [] => false | _ => true end) ld)).
Proof.
  revert d n. induction l as [|[k v] l IH]; intros d n; simpl.
  - by rewrite orb_false_r.
  - unfold bind at 1. unfold JSONStore.store_item at 1. unfold modify.
    unfold_setters. simpl. rewrite IH. simpl. by rewrite orb_true_r.
Qed.

Lemma lazy_load_eq σ : JSONStore.lazy_load σ = (Ok tt, loaded_store σ).
Proof.
  destruct σ as [fs wr [p kw d sk n ld]].
  unfold JSONStore.lazy_load, loaded_store, pending, disk_doc. unfold_monad. simpl.
  destruct ld; simpl.
  - by rewrite nonempty_empty, orb_false_r, (left_id_L ∅ (∪)).
  - unfold JSONStore._load_data_from_disk, JSONStore.read_json.
    unfold_monad. unfold_setters. simpl.
    destruct (fs !! p) as [[doc| |]|] eqn:Hp; simpl;
      try by rewrite nonempty_empty, orb_false_r, (left_id_L ∅ (∪)).
    unfold JSONStore.update. rewrite for_each_store_item.
    by rewrite foldl_insert_items.
Qed.

Lemma loaded_store_id σ :
  _data_from_disk_loaded (this σ) = true → loaded_store σ = σ.
Proof.
  destruct σ as [fs wr [p kw d sk n ld]]. simpl. intros ->.
  unfold loaded_store, pending. simpl.
  by rewrite nonempty_empty, orb_false_r, (left_id_L ∅ (∪)).
Qed.

Lemma sync_eq kw force σ :
  JSONStore.sync kw force σ =
  let L := loaded_store σ in
  let p := path (this σ) in
  let kw' := dict_or kw (json_kw (this σ)) in
  let needs := _needs_sync (this L) || differs (_synced_json_kw (this σ)) kw' in
  if negb (needs || force) then (Ok false, L)
  else
    let data := JSONStore._sanatize (_data (this L)) in
    if json_ok (VDict data)
    then (Ok true,
          mkStoreState (<[p := FJson data]> (<[p := FOther]> (files σ)))
                       (p :: writes σ)
                       (mkJSONStore p (json_kw (this σ)) (_data (this L))
                                    (Some kw') false true))
    else (Raise TypeError,
          mkStoreState (<[p := FOther]> (files σ)) (p :: writes σ)
                       (mkJSONStore p (json_kw (this σ)) (_data (this L))
                                    (_synced_json_kw (this σ)) needs true)).
Proof.
  unfold JSONStore.sync. unfold bind at 1. rewrite lazy_load_eq.
  destruct σ as [fs wr [p kw0 d sk n ld]].
  unfold loaded_store, JSONStore.json_dumps. unfold_monad. unfold_setters.
  simpl.
  destruct (differs sk (dict_or kw kw0)) eqn:Hd; simpl;
    rewrite ?orb_true_r, ?orb_false_r; simpl.
  - by destruct (json_ok _).
  - destruct (n || nonempty (pending _)) eqn:Hn; simpl.
    + by destruct (json_ok _).
    + destruct force; simpl; [|done]. by destruct (json_ok _).
Qed.

Lemma exec_eq o σ :
  exec o σ =
  let L := loaded_store σ in
  match o with
  | OGet k =>
      (match _data (this L) !! k with
       | Some v => Ok (AValue v)
       | None => Raise (KeyError k)
       end, L)
  | OSet k v =>
      (Ok AUnit,
       set_this (λ s, set__needs_sync true (set__data (<[k := v]> (_data s)) s)) L)
  | ODel k =>
      match _data (this L) !! k with
      | Some _ =>
          (Ok AUnit,
           set_this (λ s, set__needs_sync true
                            (set__data (delete k (_data (this L))) s)) L)
      | None => (Raise (KeyError k), L)
      end
  | OLen => (Ok (ANat (size (_data (this L)))), L)
  | OIter => (Ok (AItems (map_to_list (_data (this L)))), L)
  | OCopy => (Ok (ADict (_data (this L))), L)
  | OKeys => (Ok (AKeys ((map_to_list (_data (this L))).*1)), L)
  | OSync kw force =>
      match JSONStore.sync kw force σ with
      | (Ok b, σ') => (Ok (ABool b), σ')
      | (Raise e, σ') => (Raise e, σ')
      end
  end.
Proof.
  destruct o as [k|k v|k| | | | |kw force]; unfold exec;
    unfold JSONStore.__getitem__, JSONStore.__setitem__,
      JSONStore.__delitem__, JSONStore.__len__, JSONStore.__iter__,
      JSONStore.copy, JSONStore.keys, JSONStore.store_item;
    unfold bind; rewrite ?lazy_load_eq; unfold_monad; simpl; try done.
  - by destruct (_ !! k).
  - by destruct (_ !! k).
Qed.

Lemma exec_needs_sync o σ :
  _needs_sync (this (exec o σ).2)
  = if completes_write o (exec o σ).1 then false
    else _needs_sync (this σ) || mutates o (exec o σ).1
         || nonempty (pending σ) || fails_with_new_options o (exec o σ).1 σ.
Proof.
  rewrite exec_eq.
  destruct o as [k|k v|k| | | | |kw force]; simpl;
    try by rewrite !orb_false_r.
  - destruct (_needs_sync (this σ)); simpl; [done|].
    by destruct (nonempty (pending σ)).
  - destruct ((pending σ ∪ _data (this σ)) !! k); simpl;
      [|by rewrite !orb_false_r].
    destruct (_needs_sync (this σ)); simpl; [done|].
    by destruct (nonempty (pending σ)).
  - rewrite sync_eq. simpl.
    destruct (negb _) eqn:Hn; simpl.
    + apply negb_true_iff in Hn.
      apply orb_false_iff in Hn as [Hn _].
      apply orb_false_iff in Hn as [Hn Hd].
      rewrite Hn. by apply orb_false_iff in Hn as [-> ->].
    + destruct (json_ok _); simpl; [done|].
      by destruct (_needs_sync (this σ)), (nonempty (pending σ)),
        (differs _ _).
Qed.

Lemma touched_since_sync_run ops σ :
  _needs_sync (this (run ops σ))
  = touched_since_sync ops σ (_needs_sync (this σ)).
Proof.
  revert σ. induction ops as [|o ops IH]; intros σ; simpl; [done|].
  pose proof (exec_needs_sync o σ) as Hstep.
  destruct (exec o σ) as [r σ'] eqn:E. simpl in *.
  by rewrite IH, Hstep.
Qed.

Lemma loaded_store_started_empty σ :
  pending σ = ∅ → loaded_store (started_empty σ) = loaded_store σ.
Proof.
  destruct σ as [fs wr [p kw d sk n ld]].
  unfold loaded_store, started_empty, pending.
  unfold_setters. simpl. by intros ->.
Qed.

Lemma exec_started_empty o σ :
  pending σ = ∅ → exec o (started_empty σ) = exec o σ.
Proof.
  intros Hp. rewrite !exec_eq. cbv zeta.
  rewrite loaded_store_started_empty by done.
  destruct o; try done.
  rewrite !sync_eq. rewrite loaded_store_started_empty by done.
  by destruct σ as [fs wr [p kw0 d sk n ld]].
Qed.

(** C4 (as amended).  Two calls of [sync(force=False)] in a row, with the
    same options and no mutation in between, write the file at most
    once: the first call writes exactly when the store is dirty (after
    its lazy load) or the options differ from the last synced ones, and
    the second call returns [False] and leaves store and disk as they
    are. *)
Theorem sync_twice_at_most_one_write σ kw b σ1 :
  JSONStore.sync kw false σ = (Ok b, σ1) →
  JSONStore.sync kw false σ1 = (Ok false, σ1) ∧
  writes σ1 = (if b then path (this σ) :: writes σ else writes σ) ∧
  b = _needs_sync (this σ) || nonempty (pending σ)
      || differs (_synced_json_kw (this σ)) (dict_or kw (json_kw (this σ))).
Proof.
  rewrite sync_eq. cbv zeta. rewrite orb_false_r.
  set (kw' := dict_or kw (json_kw (this σ))).
  destruct (negb _) eqn:Hn.
  - intros [= <- <-]. apply negb_true_iff in Hn.
    split; [|by split].
    rewrite sync_eq. cbv zeta.
    rewrite loaded_store_id by done. simpl.
    fold kw'. simpl in Hn. by rewrite orb_false_r, Hn.
  - destruct (json_ok _); [|done]. intros [= <- <-].
    apply negb_false_iff in Hn. simpl in Hn.
    split; [|by split].
    rewrite sync_eq. cbv zeta.
    rewrite loaded_store_id by done. simpl.
    fold kw'. by rewrite differs_same.
Qed.

Lemma sync_twice_at_most_one_write_witness :
  JSONStore.sync None false (JSONStore.sync None false fresh_store_on_empty_disk).2
  = (Ok false, (JSONStore.sync None false fresh_store_on_empty_disk).2).
Proof.
  refine (proj1 (sync_twice_at_most_one_write
                   fresh_store_on_empty_disk None true _ _)).
  vm_compute. reflexivity.
Defined.

(** C4, as stated, fails: once the store is synced, two more calls in a
    row both return [False] and the file is not written at all, so
    "exactly one write" does not hold in every state. *)
Lemma sync_twice_without_any_write :
  let σ1 := (JSONStore.sync None false fresh_store_on_empty_disk).2 in
  let r2 := JSONStore.sync None false σ1 in
  let r3 := JSONStore.sync None false r2.2 in
  r2.1 = Ok false ∧ r3.1 = Ok false ∧
  length (writes r3.2) = length (writes σ1) ∧
  length (writes r3.2) ≠ S (length (writes σ1)).
Proof. vm_compute. repeat split; discriminate. Qed.

(** C5 (as amended).  Along every run of operations on a new store, the
    flag [_needs_sync] is true exactly when, since the last sync that
    completed its write, an entry was set or deleted, or the lazy load
    brought in at least one entry from the file, or a sync called with
    options other than the last synced ones did not complete. *)
Theorem dirty_flag_tracks ops fs wr p kw :
  let σ0 := mkStoreState fs wr (JSONStore.__init__ p kw) in
  _needs_sync (this (run ops σ0)) = touched_since_sync ops σ0 false.
Proof. intros σ0. by rewrite touched_since_sync_run. Qed.

(** C5, as stated, fails: a read of a store whose file has an entry
    loads the file, and the load leaves the flag set although nothing
    was set or deleted. *)
Lemma dirty_after_read_only :
  let σ0 := mkStoreState {["/repo/db.json" := FJson {["a" := VInt 1]}]} []
                         (JSONStore.__init__ "/repo/db.json" None) in
  (exec (OGet "a") σ0).1 = Ok (AValue (VInt 1)) ∧
  _needs_sync (this (run [OGet "a"] σ0)) = true ∧
  mutated_since_sync [OGet "a"] σ0 false = false.
Proof. vm_compute. done. Qed.

(** C8.  When the file of a new store cannot be read as a JSON document
    (it is missing, or its content is rejected by the parser), the lazy
    load returns normally, the store has no entry, and every operation
    that triggers the load gives the answer and the state it gives on a
    store that is marked as loaded and is empty.  The constructor does
    not touch the disk. *)
Theorem failed_load_starts_empty fs wr p kw o :
  (∀ doc, fs !! p ≠ Some (FJson doc)) →
  let σ := mkStoreState fs wr (JSONStore.__init__ p kw) in
  JSONStore._load_data_from_disk σ = (Ok tt, started_empty σ) ∧
  _data (this (started_empty σ)) = ∅ ∧
  exec o σ = exec o (started_empty σ).
Proof.
  intros Hfs σ. split; [|split; [done|]].
  - unfold JSONStore._load_data_from_disk, JSONStore.read_json, started_empty.
    unfold_monad. unfold_setters. simpl.
    destruct (fs !! p) as [[doc| |]|] eqn:E; try done.
    by destruct (Hfs doc).
  - symmetry. apply exec_started_empty.
    unfold pending, disk_doc. simpl.
    destruct (fs !! p) as [[doc| |]|] eqn:E; try done.
    by destruct (Hfs doc).
Qed.

Lemma failed_load_starts_empty_witness :
  let σ := mkStoreState {["/repo/db.json" := FOther]} []
                        (JSONStore.__init__ "/repo/db.json" None) in
  JSONStore._load_data_from_disk σ = (Ok tt, started_empty σ) ∧
  _data (this (started_empty σ)) = ∅ ∧
  exec (OGet "a") σ = exec (OGet "a") (started_empty σ).
Proof.
  apply (failed_load_starts_empty {["/repo/db.json" := FOther]} []
           "/repo/db.json" None (OGet "a")).
  intros doc. vm_compute. discriminate.
Defined.

(** ** The shared registry *)

Arguments is_method : simpl never.
Arguments has_store : simpl never.
Arguments reloads : simpl never.
Arguments loaded_store : simpl never.

Lemma invoke_eq {A} name (body : M World A) w :
  Storage.invoke name body w
  = if is_method (Storage_dict w) name then body w else (Raise TypeError, w).
Proof.
  unfold Storage.invoke, Storage.getattr, is_method. unfold_monad.
  destruct (Storage_dict w !! name) as [[]|]; simpl; try done.
  by case_bool_decide.
Qed.

Lemma db_eq {A} (m : M StoreState A) w :
  Storage.db m w
  = if has_store (Storage_dict w) then on_store m w else (Raise TypeError, w).
Proof.
  unfold Storage.db, Storage.getattr, has_store. unfold_monad.
  by destruct (Storage_dict w !! "db") as [[]|].
Qed.

Lemma for_each_set_class_attr (l : list (string * value)) w :
  for_each l (λ kv, Storage.set_class_attr kv.1 kv.2) w
  = (Ok tt, mkWorld (cwd w) (store w)
                    (foldl (λ acc kv, <[kv.1 := kv.2]> acc) (Storage_dict w) l)).
Proof.
  revert w. induction l as [|[k v] l IH]; intros w; simpl.
  - by destruct w.
  - unfold bind at 1. unfold Storage.set_class_attr at 1. unfold modify.
    by rewrite IH.
Qed.

Lemma _load_db_eq w :
  Storage._load_db w
  = if is_method (Storage_dict w) "_load_db" && has_store (Storage_dict w)
    then (Ok tt, db_loaded w)
    else (Raise TypeError, w).
Proof.
  unfold Storage._load_db. rewrite invoke_eq.
  destruct (is_method _ _); [|done]. simpl.
  unfold bind at 1. rewrite db_eq.
  destruct (has_store _); [|done].
  unfold on_store, JSONStore.__iter__. unfold bind. rewrite lazy_load_eq.
  unfold_monad. simpl. rewrite for_each_set_class_attr. simpl.
  by rewrite foldl_insert_items.
Qed.

Lemma load_eq key w :
  Storage.load key w
  = let cls := Storage_dict w in
    if negb (is_method cls "load") then (Raise TypeError, w)
    else if reloads cls
    then if is_method cls "_load_db" && has_store cls
         then (Ok (default VNone (Storage_dict (db_loaded w) !! key)), db_loaded w)
         else (Raise TypeError, w)
    else (Ok (default VNone (cls !! key)), w).
Proof.
  unfold Storage.load. rewrite invoke_eq. cbv zeta.
  destruct (is_method _ "load"); [|done]. simpl.
  unfold bind at 1. unfold Storage.getattr at 1. unfold gets at 1.
  fold (reloads (Storage_dict w)).
  destruct (reloads _); unfold bind, when.
  - rewrite _load_db_eq. by destruct (_ && _).
  - done.
Qed.

Lemma db_setitem_eq k v w :
  has_store (Storage_dict w) = true →
  Storage.db (JSONStore.__setitem__ k v) w
  = (Ok tt,
     mkWorld (cwd w)
       (mkStoreState (files (store w)) (writes (store w))
          (mkJSONStore (path (this (store w))) (json_kw (this (store w)))
             (<[k := v]> (_data (this (loaded_store (store w)))))
             (_synced_json_kw (this (store w))) true true))
       (Storage_dict w)).
Proof.
  intros Hdb. rewrite db_eq, Hdb.
  unfold on_store, JSONStore.__setitem__, JSONStore.store_item.
  unfold bind. rewrite lazy_load_eq.
  by destruct w as [c [fs wr [p kw d sk n ld]] cls].
Qed.

Lemma for_each_db_setitem_loaded (l : list (string * value))
    c fs wr p kw d sk n cls :
  has_store cls = true →
  for_each l (λ kv, Storage.db (JSONStore.__setitem__ kv.1 kv.2))
           (mkWorld c (mkStoreState fs wr (mkJSONStore p kw d sk n true)) cls)
  = (Ok tt,
     mkWorld c
       (mkStoreState fs wr
          (mkJSONStore p kw (foldl (λ acc kv, <[kv.1 := kv.2]> acc) d l) sk
                       (n || match l with [] => false | _ => true end) true))
       cls).
Proof.
  intros Hdb. revert d n. induction l as [|[k v] l IH]; intros d n; simpl.
  - by rewrite orb_false_r.
  - unfold bind at 1. rewrite db_setitem_eq by done.
    rewrite loaded_store_id by done. simpl.
    rewrite IH. by rewrite orb_true_r.
Qed.

Lemma for_each_db_setitem (l : list (string * value)) w :
  has_store (Storage_dict w) = true → l ≠ [] →
  for_each l (λ kv, Storage.db (JSONStore.__setitem__ kv.1 kv.2)) w
  = (Ok tt,
     mkWorld (cwd w)
       (mkStoreState (files (store w)) (writes (store w))
          (mkJSONStore (path (this (store w))) (json_kw (this (store w)))
             (foldl (λ acc kv, <[kv.1 := kv.2]> acc)
                    (_data (this (loaded_store (store w)))) l)
             (_synced_json_kw (this (store w))) true true))
       (Storage_dict w)).
Proof.
  intros Hdb Hl. destruct l as [|[k v] l]; [done|]. simpl.
  unfold bind at 1. rewrite db_setitem_eq by done.
  by rewrite for_each_db_setitem_loaded.
Qed.

Lemma db_sync_dirty w :
  has_store (Storage_dict w) = true →
  _needs_sync (this (store w)) = true →
  _data_from_disk_loaded (this (store w)) = true →
  let p := path (this (store w)) in
  let san := JSONStore._sanatize (_data (this (store w))) in
  ∃ w', Storage.db (JSONStore.sync None false) w
        = (if json_ok (VDict san) then Ok true else Raise TypeError, w') ∧
        (json_ok (VDict san) = true →
         w' = mkWorld (cwd w)
                (mkStoreState (<[p := FJson san]> (files (store w)))
                   (p :: writes (store w))
                   (mkJSONStore p (json_kw (this (store w)))
                      (_data (this (store w)))
                      (Some (json_kw (this (store w)))) false true))
                (Storage_dict w)).
Proof.
  intros Hdb Hn Hl. cbv zeta. rewrite db_eq, Hdb. unfold on_store.
  rewrite sync_eq. cbv zeta. rewrite loaded_store_id by done.
  rewrite Hn. simpl. unfold dict_or.
  destruct (json_ok _); eexists; (split; [reflexivity|]); [|done].
  intros _. by rewrite insert_insert_eq.
Qed.

Lemma bind_ok {Σ A B} (m : M Σ A) (f : A → M Σ B) σ a σ' :
  m σ = (Ok a, σ') → bind m f σ = f a σ'.
Proof. unfold bind. by intros ->. Qed.

Lemma bind_raise {Σ A B} (m : M Σ A) (f : A → M Σ B) σ e σ' :
  m σ = (Raise e, σ') → bind m f σ = (Raise e, σ').
Proof. unfold bind. by intros ->. Qed.

Lemma for_each_db_setitem_no_store (l : list (string * value)) w :
  has_store (Storage_dict w) = false → l ≠ [] →
  for_each l (λ kv, Storage.db (JSONStore.__setitem__ kv.1 kv.2)) w
  = (Raise TypeError, w).
Proof.
  intros Hdb Hl. destruct l as [|[k v] l]; [done|]. simpl.
  apply bind_raise. by rewrite db_eq, Hdb.
Qed.

Lemma insert_items_nonempty (cls : dict) key v :
  map_to_list (<[key := v]> cls) ≠ [].
Proof.
  intros He. apply map_to_list_empty_iff in He.
  apply (f_equal (λ m : dict, m !! key)) in He.
  by rewrite lookup_insert_eq, lookup_empty in He.
Qed.

(** The part of [save] that follows the conditional reload. *)
Lemma save_tail_eq key v w :
  let tail :=
    (Storage.set_class_attr key v ;;
     cls <- gets Storage_dict ;;
     for_each (map_to_list cls)
       (λ kv, Storage.db (JSONStore.__setitem__ kv.1 kv.2)) ;;
     Storage.db (JSONStore.sync None false) ;; ret tt) in
  let cls2 := <[key := v]> (Storage_dict w) in
  let ents := cls2 ∪ _data (this (loaded_store (store w))) in
  let p := path (this (store w)) in
  let ok := has_store cls2 && json_ok (VDict (JSONStore._sanatize ents)) in
  ∃ w', tail w = (if ok then Ok tt else Raise TypeError, w') ∧
        (ok = true →
         w' = mkWorld (cwd w)
                (mkStoreState (<[p := FJson (JSONStore._sanatize ents)]>
                                 (files (store w)))
                   (p :: writes (store w))
                   (mkJSONStore p (json_kw (this (store w))) ents
                      (Some (json_kw (this (store w)))) false true))
                cls2).
Proof.
  intros tail cls2 ents p ok.
  set (w1 := mkWorld (cwd w) (store w) cls2).
  assert (tail w = (for_each (map_to_list cls2)
       (λ kv, Storage.db (JSONStore.__setitem__ kv.1 kv.2)) ;;
     Storage.db (JSONStore.sync None false) ;; ret tt) w1) as -> by done.
  assert (map_to_list cls2 ≠ []) as Hne by apply insert_items_nonempty.
  subst ok. destruct (has_store cls2) eqn:Hdb; cbn [andb].
  - rewrite (bind_ok _ _ _ _ _ (for_each_db_setitem _ w1 Hdb Hne)).
    subst w1. cbn [cwd store Storage_dict].
    rewrite foldl_insert_items. fold ents.
    set (w2 := mkWorld _ _ _).
    destruct (db_sync_dirty w2 Hdb eq_refl eq_refl) as (w' & Hs & Hw').
    subst w2.
    cbn [cwd store Storage_dict files writes this path json_kw _data] in *.
    fold p in Hw'.
    destruct (json_ok _).
    + rewrite (bind_ok _ _ _ _ _ Hs). exists w'. split; [done|].
      intros _. by apply Hw'.
    + exists w'. by rewrite (bind_raise _ _ _ _ _ Hs).
  - exists w1.
    by rewrite (bind_raise _ _ _ _ _
                  (for_each_db_setitem_no_store _ w1 Hdb Hne)).
Qed.

Lemma store_db_loaded w : store (db_loaded w) = loaded_store (store w).
Proof. done. Qed.
Lemma cwd_db_loaded w : cwd (db_loaded w) = cwd w.
Proof. done. Qed.
Lemma loaded_store_idem σ : loaded_store (loaded_store σ) = loaded_store σ.
Proof. by apply loaded_store_id. Qed.
Lemma path_loaded_store σ : path (this (loaded_store σ)) = path (this σ).
Proof. done. Qed.
Lemma json_kw_loaded_store σ : json_kw (this (loaded_store σ)) = json_kw (this σ).
Proof. done. Qed.
Lemma files_loaded_store σ : files (loaded_store σ) = files σ.
Proof. done. Qed.
Lemma writes_loaded_store σ : writes (loaded_store σ) = writes σ.
Proof. done. Qed.

Lemma save_eq key v w :
  ∃ w', Storage.save key v w
        = (if can_save key v w then Ok tt else Raise TypeError, w') ∧
        (can_save key v w = true → w' = saved key v w).
Proof.
  unfold can_save, saved, entries_for_save, registry_for_save.
  unfold Storage.save. rewrite invoke_eq.
  destruct (is_method _ "save"); cbn [andb]; [|by eexists].
  unfold bind at 1. unfold Storage.getattr at 1. unfold gets at 1.
  fold (reloads (Storage_dict w)).
  destruct (reloads (Storage_dict w)) eqn:Hr; unfold when; cbn [negb orb].
  - unfold bind at 1. rewrite _load_db_eq.
    destruct (is_method _ "_load_db" && has_store _); cbn [andb];
      [|by eexists].
    pose proof (save_tail_eq key v (db_loaded w)) as Ht. cbv zeta in Ht.
    rewrite !store_db_loaded, !cwd_db_loaded, !loaded_store_idem,
      !path_loaded_store, !json_kw_loaded_store, !files_loaded_store,
      !writes_loaded_store in Ht.
    exact Ht.
  - unfold bind at 1. unfold ret at 1.
    exact (save_tail_eq key v w).
Qed.

Lemma save_Ok key v w :
  can_save key v w = true → Storage.save key v w = (Ok tt, saved key v w).
Proof.
  intros Hc. destruct (save_eq key v w) as (w' & -> & Hw').
  by rewrite Hc, Hw'.
Qed.

Lemma save_Ok_inv key v w w1 :
  Storage.save key v w = (Ok tt, w1) →
  can_save key v w = true ∧ w1 = saved key v w.
Proof.
  destruct (save_eq key v w) as (w' & -> & Hw').
  destruct (can_save key v w); [|done].
  intros [= <-]. by rewrite Hw'.
Qed.

Lemma own_methods_is_method cls m :
  own_methods cls = true → m ∈ Storage.methods → is_method cls m = true.
Proof.
  unfold own_methods. rewrite forallb_forall. intros H Hm.
  apply H. by apply list_elem_of_In.
Qed.

Lemma entries_for_save_lookup key v w k x :
  registry_for_save key v w !! k = Some x →
  entries_for_save key v w !! k = Some x.
Proof. intros H. unfold entries_for_save. by apply lookup_union_Some_l. Qed.












(** ** The configuration object *)

Arguments Config.upper_items : simpl never.
Arguments Config.set_items : simpl never.

Lemma method_eq {Σ A} self name (body : M Σ A) :
  self !! name = None → Config.method self name body = body.
Proof. unfold Config.method. by intros ->. Qed.

Lemma isupper_no_lower k : isupper k = true → has_lower k = false.
Proof.
  unfold isupper, has_lower. rewrite andb_true_iff. intros [Hall _].
  induction (chars k) as [|c l IH]; simpl in *; [done|].
  apply andb_true_iff in Hall as [Hc Hl].
  apply negb_true_iff in Hc. rewrite Hc. by apply IH.
Qed.

(** C9.  For a client-mode flag that is a boolean: [from_object] raises
    [ConfigError] when the flag is [False]; when it is [True], the
    result has, for every upper-case name, the value of the external
    object if the object has that attribute and the former value
    otherwise, and has every other name as it was. *)
Theorem from_object_merges_upper_case {Σ} (self obj : dict) (client : bool) (σ : Σ) :
  self !! "from_object" = None →
  self !! "client" = Some (VBool client) →
  if client then
    ∃ self', Config.from_object self obj σ = (Ok self', σ) ∧
      ∀ k, self' !! k
           = if isupper k
             then match obj !! k with Some v => Some v | None => self !! k end
             else self !! k
  else
    Config.from_object self obj σ
    = (Raise (ConfigError "This object is not configured for client use"), σ).
Proof.
  intros Hm Hc. unfold Config.from_object. rewrite method_eq by done.
  unfold Config.getattr. rewrite Hc. unfold_monad.
  destruct client; simpl; [|done].
  eexists. split; [done|]. apply merge_upper_lookup.
Qed.

Lemma from_object_merges_upper_case_witness :
  ∃ self', Config.from_object
             ({["client" := VBool true; "APP_NAME" := VStr "old"]} : dict)
             ({["APP_NAME" := VStr "Acme"; "debug" := VBool true]} : dict) tt
           = (Ok self', tt) ∧
    ∀ k, self' !! k
         = if isupper k
           then match ({["APP_NAME" := VStr "Acme"; "debug" := VBool true]} : dict) !! k with
                | Some v => Some v
                | None => ({["client" := VBool true; "APP_NAME" := VStr "old"]} : dict) !! k
                end
           else ({["client" := VBool true; "APP_NAME" := VStr "old"]} : dict) !! k.
Proof.
  apply (from_object_merges_upper_case
           ({["client" := VBool true; "APP_NAME" := VStr "old"]} : dict)
           ({["APP_NAME" := VStr "Acme"; "debug" := VBool true]} : dict)
           true tt); vm_compute; reflexivity.
Defined.

Lemma is_method_insert_ne (cls : dict) k v m :
  k ≠ m → is_method (<[k := v]> cls) m = is_method cls m.
Proof. intros Hne. unfold is_method. by rewrite lookup_insert_ne. Qed.

Lemma setattr_eq name v w :
  is_method (Storage_dict w) "__setattr__" = true →
  Storage.__setattr__ name v w
  = (Ok tt, mkWorld (cwd w) (store w) (<[name := v]> (Storage_dict w))).
Proof.
  intros Hm. unfold Storage.__setattr__. by rewrite invoke_eq, Hm.
Qed.

Section with_settings.
Context `{Settings}.

Lemma init_eq refresh w :
  own_methods (Storage_dict w) = true →
  Storage.__init__ refresh w = (Ok tt, constructed refresh w).
Proof.
  intros Hm.
  pose proof (own_methods_is_method _ "__init__" Hm ltac:(set_solver)) as Hi.
  pose proof (own_methods_is_method _ "__setattr__" Hm ltac:(set_solver)) as Hs.
  pose proof (own_methods_is_method _ "_load_db" Hm ltac:(set_solver)) as Hl.
  unfold Storage.__init__. rewrite invoke_eq, Hi.
  unfold bind at 1. unfold gets at 1.
  rewrite (bind_ok _ _ _ _ _ (setattr_eq _ _ _ Hs)).
  erewrite bind_ok;
    [|apply setattr_eq; cbn [Storage_dict];
      by rewrite is_method_insert_ne].
  unfold bind at 1. unfold modify at 1. unfold_setters.
  cbn [cwd store Storage_dict files writes].
  erewrite bind_ok;
    [|apply setattr_eq; cbn [Storage_dict];
      by rewrite !is_method_insert_ne].
  erewrite bind_ok;
    [|apply setattr_eq; cbn [Storage_dict];
      by rewrite !is_method_insert_ne].
  cbn [cwd store Storage_dict].
  unfold constructed, registry_file. destruct refresh; unfold when.
  - erewrite bind_ok;
      [|apply setattr_eq; cbn [Storage_dict];
        by rewrite !is_method_insert_ne].
    cbn [cwd store Storage_dict]. rewrite insert_insert_eq.
    rewrite _load_db_eq. cbn [Storage_dict].
    rewrite !is_method_insert_ne, Hl by done.
    unfold has_store at 1. rewrite lookup_insert_ne by done.
    by rewrite lookup_insert_eq.
  - done.
Qed.

End with_settings.

Lemma load_frame_refl w : load_frame w w.
Proof. repeat split; auto. Qed.

Lemma load_frame_settled w w' : load_frame w w' → settled w → settled w'.
Proof.
  intros (_ & _ & _ & Hs) [Hl Hsub]. destruct (Hs (conj Hl Hsub)) as [Ht Hd].
  split; rewrite Ht; [done|]. by destruct Hd as [-> | ->].
Qed.

Lemma load_frame_trans w1 w2 w3 :
  load_frame w1 w2 → load_frame w2 w3 → load_frame w1 w3.
Proof.
  intros H12 H23.
  pose proof (load_frame_settled _ _ H12) as Hset.
  destruct H12 as (Hc & Hf & Hw & Hs), H23 as (Hc' & Hf' & Hw' & Hs').
  split; [congruence|]. split; [congruence|]. split; [congruence|].
  intros Hs1. destruct (Hs Hs1) as [Ht Hd].
  destruct (Hs' (Hset Hs1)) as [Ht' Hd'].
  split; [congruence|]. rewrite Ht in Hd'.
  destruct Hd' as [-> | ->]; auto.
Qed.

Lemma db_loaded_frame w : load_frame w (db_loaded w).
Proof.
  repeat split; try done.
  - unfold db_loaded. cbn [store]. by rewrite loaded_store_id by apply H.
  - destruct H as [Hl Hsub]. right. unfold db_loaded. cbn [Storage_dict].
    rewrite loaded_store_id by done.
    apply map_eq. intros k. rewrite lookup_union.
    destruct (_data (this (store w)) !! k) as [x|] eqn:Hx.
    + by destruct (Storage_dict w !! k).
    + rewrite (left_id_L None _).
      destruct (Storage_dict w !! k) as [y|] eqn:Hy; [|done].
      rewrite (lookup_weaken _ _ _ _ Hy Hsub) in Hx. done.
Qed.

Lemma load_frame_load k w r w' :
  Storage.load k w = (r, w') → load_frame w w'.
Proof.
  rewrite load_eq. cbv zeta.
  destruct (negb _); [intros [= _ <-]; apply load_frame_refl|].
  destruct (reloads _).
  - destruct (_ && _); intros [= _ <-];
      [apply db_loaded_frame|apply load_frame_refl].
  - intros [= _ <-]. apply load_frame_refl.
Qed.

Lemma getitem_state k σ : (JSONStore.__getitem__ k σ).2 = loaded_store σ.
Proof.
  unfold JSONStore.__getitem__. unfold bind. rewrite lazy_load_eq.
  unfold_monad. by destruct (_ !! k).
Qed.

Lemma load_frame_subscript v k w r w' :
  Config.subscript v k w = (r, w') → load_frame w w'.
Proof.
  destruct v as [| | | | |d| | | |]; simpl;
    try (intros [= _ <-]; apply load_frame_refl).
  - destruct (d !! k); intros [= _ <-]; apply load_frame_refl.
  - rewrite db_eq. destruct (has_store _);
      [|intros [= _ <-]; apply load_frame_refl].
    unfold on_store.
    pose proof (getitem_state k (store w)) as Hst.
    destruct (JSONStore.__getitem__ k (store w)) as [r0 σ]. simpl in Hst.
    subst σ. intros [= _ <-]. unfold_setters.
    repeat split; try done.
    + cbn [store]. by rewrite loaded_store_id by apply H.
    + by left.
  - unfold Storage.__getitem__. rewrite invoke_eq.
    destruct (is_method _ _); [|intros [= _ <-]; apply load_frame_refl].
    unfold_monad. destruct (_ !! k); intros [= _ <-]; apply load_frame_refl.
Qed.

Lemma load_frame_on_db_load dbv k w r w' :
  (if is_None dbv then ret VNone
   else Config.on_db dbv "load" (Storage.load k)) w = (r, w') →
  load_frame w w'.
Proof.
  destruct dbv; simpl; try (intros [= _ <-]; apply load_frame_refl).
  apply load_frame_load.
Qed.

Lemma load_frame_public_key kd w r w' :
  (if is_None kd then ret VNone
   else client <- Config.subscript kd "client" ;;
        Config.subscript client "offline_public") w = (r, w') →
  load_frame w w'.
Proof.
  destruct (is_None kd); [intros [= _ <-]; apply load_frame_refl|].
  unfold bind.
  destruct (Config.subscript kd "client" w) as [[c|e] wa] eqn:H1.
  - intros H2. eapply load_frame_trans; by eapply load_frame_subscript.
  - intros [= _ <-]. by eapply load_frame_subscript.
Qed.

Section with_settings.
Context `{Settings}.

Lemma write_config_py_Ok_inv self w w2 :
  Config._write_config_py self w = (Ok tt, w2) →
  ∃ w1 pk art,
    load_frame w w1 ∧
    client_config_file self (cwd w) = Some art ∧
    w2 = mkWorld (cwd w1)
           (mkStoreState
              (<[art := FClientConfig (Config.client_config_lines self pk)]>
                 (files (store w1)))
              (art :: writes (store w1)) (this (store w1)))
           (Storage_dict w1).
Proof.
  unfold Config._write_config_py, Config.method.
  destruct (self !! "_write_config_py"); [done|].
  unfold bind at 1. unfold Config.getattr at 1.
  destruct (self !! "db") as [dbv|]; [|done]. unfold ret at 1.
  unfold bind at 1.
  destruct ((if is_None dbv then ret VNone
             else Config.on_db dbv "load" (Storage.load CONFIG_DB_KEY_KEYPACK)) w)
    as [[kd|e] wa] eqn:H1; [|done].
  apply load_frame_on_db_load in H1.
  unfold bind at 1.
  destruct ((if is_None kd then ret VNone
             else client <- Config.subscript kd "client" ;;
                  Config.subscript client "offline_public") wa)
    as [[pk|e] wb] eqn:H2; [|done].
  apply load_frame_public_key in H2.
  pose proof (load_frame_trans _ _ _ H1 H2) as Hf.
  unfold bind at 1. unfold Config.getattr at 1.
  unfold client_config_file.
  destruct (self !! "CLIENT_CONFIG_PATH") as [ccp|]; [|done].
  unfold ret at 1. simpl.
  destruct (Config.segments ccp) as [segs|]; [|done]. simpl.
  unfold_monad. unfold_setters. simpl. intros [= <-].
  exists wb, pk, (path_join (cwd w) segs).
  split; [done|]. destruct Hf as (-> & _). split; [done|].
  by rewrite insert_insert_eq.
Qed.

Lemma saved_settled key v w : settled (saved key v w).
Proof.
  split; [done|]. unfold saved, entries_for_save.
  cbn [Storage_dict store this _data]. apply map_union_subseteq_l.
Qed.

(** What a [save_config] that returned has done. *)
Lemma save_config_Ok_inv self w w2 :
  Config.save_config self w = (Ok tt, w2) →
  let out := Config.upper_items self in
  let w1 := saved CONFIG_DB_KEY_APP_CONFIG (VDict out) w in
  ∃ pk art,
    can_save CONFIG_DB_KEY_APP_CONFIG (VDict out) w = true ∧
    client_config_file self (cwd w) = Some art ∧
    cwd w2 = cwd w ∧
    files (store w2)
    = <[art := FClientConfig (Config.client_config_lines self pk)]>
        (files (store w1)) ∧
    this (store w2) = this (store w1) ∧
    (Storage_dict w2 = Storage_dict w1 ∨
     Storage_dict w2 = _data (this (store w1))).
Proof.
  unfold Config.save_config, Config.method.
  destruct (self !! "save_config"); [done|].
  unfold bind at 1. unfold Config.getattr at 1.
  destruct (self !! "db") as [dbv|]; [|done]. unfold ret at 1.
  destruct (is_None dbv); [done|].
  destruct (self !! "items"); [done|].
  destruct dbv; try done. unfold Config.on_db.
  unfold bind.
  destruct (Storage.save _ _ w) as [[[]|e] w1] eqn:Hs; [|done].
  apply save_Ok_inv in Hs as [Hcan ->].
  intros Hw. cbv zeta.
  apply write_config_py_Ok_inv in Hw as (wa & pk & art & Hf & Hart & ->).
  destruct Hf as (Hc & Hfs & Hwr & Hset).
  destruct (Hset (saved_settled _ _ _)) as [Ht Hd].
  exists pk, art. cbn [cwd store files this Storage_dict].
  by rewrite Hfs.
Qed.

End with_settings.

Lemma segments_strings (segs : list string) :
  Config.segments (VList (VStr <$> segs)) = Some segs.
Proof.
  simpl. induction segs as [|x l IH]; [done|].
  rewrite fmap_cons. simpl. by rewrite IH.
Qed.

Lemma kept_dict k d :
  k ∉ JSONStore.reserved_names → JSONStore.kept k (VDict d) = true.
Proof.
  intros Hk. unfold JSONStore.kept. simpl. by rewrite bool_decide_eq_false_2.
Qed.

Section with_settings.
Context `{Settings}.

(** C7.  When [save_config] has returned, the record bound to the
    settings key, in the registry and in the file of the store, is the
    mapping of the upper-case items of the object: none of its keys
    has a lower-case character, and [_internal] and [client] are not
    among them.  The settings key is supposed not to be one of the
    names that [_sanatize] drops, and the client configuration file
    not to be the file of the store. *)
Theorem persisted_record_is_upper_case self w w2 :
  Config.save_config self w = (Ok tt, w2) →
  CONFIG_DB_KEY_APP_CONFIG ∉ JSONStore.reserved_names →
  client_config_file self (cwd w) ≠ Some (path (this (store w))) →
  let out := Config.upper_items self in
  Storage_dict w2 !! CONFIG_DB_KEY_APP_CONFIG = Some (VDict out) ∧
  (∃ doc, files (store w2) !! path (this (store w)) = Some (FJson doc) ∧
          doc !! CONFIG_DB_KEY_APP_CONFIG = Some (VDict out)) ∧
  (∀ k, is_Some (out !! k) → isupper k = true ∧ has_lower k = false) ∧
  out !! "_internal" = None ∧ out !! "client" = None.
Proof.
  intros Hs Hkey Hart out.
  apply save_config_Ok_inv in Hs
    as (pk & art & Hcan & Ha & Hc & Hf & Ht & Hd).
  fold out in Hcan, Hf, Ht, Hd.
  set (w1 := saved CONFIG_DB_KEY_APP_CONFIG (VDict out) w) in *.
  assert (Storage_dict w1 !! CONFIG_DB_KEY_APP_CONFIG = Some (VDict out))
    as Hreg by apply lookup_insert_eq.
  assert (_data (this (store w1)) !! CONFIG_DB_KEY_APP_CONFIG
          = Some (VDict out)) as Hent
    by by apply entries_for_save_lookup.
  split; [by destruct Hd as [-> | ->]|].
  split.
  - eexists. split.
    + rewrite Hf. rewrite lookup_insert_ne by congruence.
      apply lookup_insert_eq.
    + apply sanatize_lookup. split; [done|]. by apply kept_dict.
  - split.
    + intros k [v Hk]. apply upper_items_lookup in Hk as [_ Hk].
      split; [done|]. by apply isupper_no_lower.
    + split; apply eq_None_not_Some; intros [v Hk];
        by apply upper_items_lookup in Hk as [_ Hk].
Qed.

(** C2 (as amended).  In [_write_config_py], when the registry has no
    key-material record ([load] gives [None]), the public key is
    [None] and the file is written, with [None] as the value of
    [PUBLIC_KEY] if the object has that field; when the record is a
    mapping without [client], or with a [client] mapping without
    [offline_public], the method raises [KeyError] and nothing is
    written. *)
Theorem public_key_of_missing_record self w kd w1 :
  self !! "_write_config_py" = None →
  self !! "db" = Some VStorage →
  Storage.load CONFIG_DB_KEY_KEYPACK w = (Ok kd, w1) →
  (kd = VNone →
   ∀ segs, self !! "CLIENT_CONFIG_PATH" = Some (VList (VStr <$> segs)) →
     ∃ w2, Config._write_config_py self w = (Ok tt, w2) ∧
           files (store w2) !! path_join (cwd w) segs
           = Some (FClientConfig (Config.client_config_lines self VNone))) ∧
  (∀ d, kd = VDict d → d !! "client" = None →
     Config._write_config_py self w = (Raise (KeyError "client"), w1)) ∧
  (∀ d c, kd = VDict d → d !! "client" = Some (VDict c) →
     c !! "offline_public" = None →
     Config._write_config_py self w
     = (Raise (KeyError "offline_public"), w1)).
Proof.
  intros Hm Hdb Hl.
  assert (
    Config._write_config_py self w
    = (public_key <- (if is_None kd then ret VNone
                      else client <- Config.subscript kd "client" ;;
                           Config.subscript client "offline_public") ;;
       ccp <- Config.getattr self "CLIENT_CONFIG_PATH" ;;
       match Config.segments ccp with
       | None => raise TypeError
       | Some segs =>
           here <- gets cwd ;;
           let filename := path_join here segs in
           modify (set_store (open_w filename)) ;;
           modify (set_store (write_file filename
             (FClientConfig (Config.client_config_lines self public_key))))
       end) w1) as ->.
  { unfold Config._write_config_py. rewrite method_eq by done.
    unfold bind at 1. unfold Config.getattr at 1. rewrite Hdb.
    unfold ret at 1. cbn [is_None Config.on_db].
    by rewrite (bind_ok _ _ _ _ _ Hl). }
  split; [|split].
  - intros -> segs Hccp. cbn [is_None].
    unfold bind at 1. unfold ret at 1.
    unfold bind at 1. unfold Config.getattr. rewrite Hccp. unfold ret at 1.
    rewrite segments_strings. unfold_monad. unfold_setters. simpl.
    eexists. split; [done|].
    apply load_frame_load in Hl as (-> & _).
    apply lookup_insert_eq.
  - intros d -> Hc. cbn [is_None]. simpl. unfold bind. by rewrite Hc.
  - intros d c -> Hc Ho. cbn [is_None]. simpl. unfold bind.
    rewrite Hc. unfold ret. simpl. by rewrite Ho.
Qed.

End with_settings.

Lemma persisted_record_is_upper_case_witness :
  let w2 := (@Config.save_config example_settings default_config
               after_default_config).2 in
  let out := Config.upper_items default_config in
  Storage_dict w2 !! "app_config" = Some (VDict out) ∧
  (∃ doc, files (store w2) !! "/repo/.pyupdater/config.pyu" = Some (FJson doc) ∧
          doc !! "app_config" = Some (VDict out)) ∧
  (∀ k, is_Some (out !! k) → isupper k = true ∧ has_lower k = false) ∧
  out !! "_internal" = None ∧ out !! "client" = None.
Proof.
  apply (@persisted_record_is_upper_case example_settings default_config
           after_default_config).
  - vm_compute. reflexivity.
  - intros Hin. by repeat (apply elem_of_cons in Hin as [Hin|Hin];
      [discriminate|]); apply elem_of_nil in Hin.
  - vm_compute. discriminate.
Defined.

Lemma public_key_of_missing_record_witness :
  ∃ w2, @Config._write_config_py example_settings default_config
          after_default_config = (Ok tt, w2) ∧
        files (store w2) !! "/repo/client_config.py"
        = Some (FClientConfig (Config.client_config_lines default_config VNone)).
Proof.
  refine (proj1 (@public_key_of_missing_record example_settings default_config
                   after_default_config VNone after_default_config
                   _ _ _) eq_refl ["client_config.py"] _);
    vm_compute; reflexivity.
Defined.

(** C2, as stated, fails: with a key-material record that is present but
    has no [client] entry, generation raises [KeyError] instead of
    putting [None] in the place of the public key. *)
Lemma missing_client_entry_raises :
  Storage_dict after_empty_keypack !! "keypack" = Some (VDict ∅) ∧
  (@Config._write_config_py example_settings default_config
     after_empty_keypack).1 = Raise (KeyError "client").
Proof. vm_compute. split; reflexivity. Qed.

Section with_settings.
Context `{Settings}.

Lemma load_config_Ok_inv self w self2 w' :
  Config._load_config self w = (Ok self2, w') →
  ∃ cd items,
    Storage.load CONFIG_DB_KEY_APP_CONFIG w = (Ok cd, w') ∧
    (cd = VNone ∧ items = ∅ ∨ cd = VDict items) ∧
    self2 = <["DATA_DIR" := VStr (cwd w')]> (items ∪ self).
Proof.
  unfold Config._load_config, Config.method.
  destruct (self !! "_load_config"); [done|].
  unfold bind at 1. unfold Config.getattr at 1.
  destruct (self !! "db") as [dbv|]; [|done]. unfold ret at 1.
  destruct (is_None dbv); [done|].
  destruct dbv; try done. unfold Config.on_db.
  unfold bind at 1.
  destruct (Storage.load _ w) as [[cd|e] w1] eqn:Hl; [|done].
  unfold Config.setattr.
  destruct cd; try done; unfold_monad; intros [= <- <-].
  - exists VNone, ∅. split; [done|]. split; [by left|].
    by rewrite set_items_union.
  - eexists _, _. split; [done|]. split; [by right|].
    by rewrite set_items_union.
Qed.

Lemma init_Ok_inv args kwargs w self w' :
  Config.__init__ args kwargs w = (Ok self, w') →
  let self0 :=
    <["client" := default (VBool false) (kwargs !! "client")]>
      (<["load_config" := default (VBool false) (kwargs !! "load_config")]>
         (Config.config_template ∪ (kwargs ∪ args))) in
  (is_False (default (VBool false) (kwargs !! "client")) = false ∧
   self = <["db" := VNone]> self0 ∧ w' = w) ∨
  (is_False (default (VBool false) (kwargs !! "client")) = true ∧
   ∃ w1, Storage.__init__ true w = (Ok tt, w1) ∧
     ((is_True (default (VBool false) (kwargs !! "load_config")) = false ∧
       self = <["db" := VStorage]> self0 ∧ w' = w1) ∨
      (is_True (default (VBool false) (kwargs !! "load_config")) = true ∧
       Config._load_config (<["db" := VStorage]> self0) w1 = (Ok self, w')))).
Proof.
  unfold Config.__init__, Config.__postinit__, Config.method, Config.setattr.
  destruct ((kwargs ∪ args) !! "__postinit__"); [done|].
  destruct ((kwargs ∪ args) !! "update"); [done|].
  unfold bind at 1. unfold ret at 1.
  unfold bind at 1. unfold Config.getattr at 1.
  rewrite lookup_insert_eq. unfold ret at 1.
  destruct (is_False _) eqn:Hc.
  - unfold bind at 1.
    destruct (Storage.__init__ true w) as [[[]|e] w1] eqn:Hi; [|done].
    unfold bind at 1. unfold Config.getattr at 1.
    rewrite lookup_insert_ne by done.
    rewrite lookup_insert_ne by done.
    rewrite lookup_insert_eq. unfold ret at 1.
    destruct (is_True _) eqn:Hl.
    + intros Hload. right. split; [done|]. exists w1. split; [done|].
      right. by split.
    + intros [= <- <-]. right. split; [done|]. exists w1. split; [done|].
      by left.
  - intros [= <- <-]. by left.
Qed.

End with_settings.

Lemma not_data_descriptor name :
  name ∉ ConfigObject.data_descriptors →
  name ≠ "__dict__" ∧ name ≠ "__class__" ∧ name ≠ "__weakref__".
Proof.
  intros Hn. repeat split; intros ->; apply Hn; repeat constructor.
Qed.

Lemma bind_ret_l {Σ A B} (a : A) (f : A → M Σ B) : bind (ret a) f = f a.
Proof. reflexivity. Qed.

Lemma bind_raise_l {Σ A B} e (f : A → M Σ B) : bind (raise e) f = raise e.
Proof. reflexivity. Qed.

Lemma shared_outcome_bind {Σ A} (m : M Σ A) F G (σ : Σ) :
  (∀ a σ', F a σ' = shared_outcome (G a σ')) →
  bind m F σ = shared_outcome (bind m G σ).
Proof.
  intros HFG. unfold bind. destruct (m σ) as [[a|e] σ']; [apply HFG|done].
Qed.

Lemma setattr_shared {Σ} (m : dict) name v :
  name ∉ ConfigObject.data_descriptors →
  @ConfigObject.setattr Σ (mkConfigObject m None) name v
  = ret (mkConfigObject (<[name := v]> m) None).
Proof.
  intros (? & ? & ?)%not_data_descriptor. unfold ConfigObject.setattr.
  by rewrite !bool_decide_eq_false_2 by done.
Qed.

Lemma getattr_instance_dict {Σ} T self name v :
  name ∉ ConfigObject.data_descriptors →
  ConfigObject.instance_dict self !! name = Some v →
  @ConfigObject.getattr T Σ self name = ret v.
Proof.
  intros (? & ? & ?)%not_data_descriptor Hv. unfold ConfigObject.getattr.
  rewrite !bool_decide_eq_false_2 by done. by rewrite Hv.
Qed.

Lemma config_getattr_item {Σ} (m : dict) name v :
  m !! name = Some v → @Config.getattr Σ m name = ret v.
Proof. unfold Config.getattr. by intros ->. Qed.

Lemma foldl_setitem (l : list (string * value)) (m : dict) ns :
  foldl (λ acc kv, ConfigObject.__setitem__ acc kv.1 kv.2)
        (mkConfigObject m ns) l
  = mkConfigObject (foldl (λ acc kv, <[kv.1 := kv.2]> acc) m l) ns.
Proof.
  revert m. induction l as [|[k v] l IH]; intros m; simpl; [done|apply IH].
Qed.

Lemma bookkeeping_not_descriptor :
  ("load_config" ∉ ConfigObject.data_descriptors) ∧
  ("client" ∉ ConfigObject.data_descriptors) ∧
  ("db" ∉ ConfigObject.data_descriptors) ∧
  ("DATA_DIR" ∉ ConfigObject.data_descriptors).
Proof.
  repeat split; intros Hin;
    by repeat (apply elem_of_cons in Hin as [Hin|Hin]; [discriminate|]);
       apply elem_of_nil in Hin.
Qed.

Section with_settings.
Context `{Settings}.

(** On an instance whose namespace is its mapping, the functions of
    [Config] on the mapping do what the methods do on the instance. *)
Lemma load_config_refines T (m : dict) dbv w :
  m !! "db" = Some dbv →
  ConfigObject._load_config T (mkConfigObject m None) w
  = shared_outcome (Config._load_config m w).
Proof.
  intros Hdb.
  destruct bookkeeping_not_descriptor as (_ & _ & Hd3 & Hd4).
  unfold ConfigObject._load_config, Config._load_config,
    ConfigObject.method, Config.method. cbn [ConfigObject.instance_dict
    namespace mapping default from_option id].
  destruct (m !! "_load_config"); [done|].
  rewrite (getattr_instance_dict _ _ _ dbv) by done.
  rewrite (config_getattr_item _ _ dbv) by done.
  rewrite !bind_ret_l.
  destruct (is_None dbv); [done|].
  apply shared_outcome_bind. intros cd w1.
  destruct cd; rewrite ?bind_ret_l, ?bind_raise_l; try done;
    apply shared_outcome_bind; intros here w2;
    by rewrite foldl_setitem, setattr_shared.
Qed.

Lemma init_refines T args kwargs w :
  ConfigObject.__init__ T args kwargs w
  = shared_outcome (Config.__init__ args kwargs w).
Proof.
  destruct bookkeeping_not_descriptor as (Hd1 & Hd2 & Hd3 & _).
  unfold ConfigObject.__init__, Config.__init__, ConfigObject.__postinit__,
    Config.__postinit__, ConfigObject.method, Config.method,
    ConfigObject.new, ConfigObject.share_namespace, Config.setattr.
  cbn [ConfigObject.instance_dict namespace mapping default from_option id].
  destruct ((kwargs ∪ args) !! "__postinit__"); [done|].
  destruct ((kwargs ∪ args) !! "update"); [done|].
  rewrite !bind_ret_l. cbn [mapping namespace].
  rewrite setattr_shared, bind_ret_l by done.
  rewrite setattr_shared, bind_ret_l by done.
  rewrite (getattr_instance_dict _ _ _
             (default (VBool false) (kwargs !! "client")))
    by (done || apply lookup_insert_eq).
  rewrite (config_getattr_item _ _
             (default (VBool false) (kwargs !! "client")))
    by apply lookup_insert_eq.
  rewrite !bind_ret_l.
  destruct (is_False _).
  - apply shared_outcome_bind. intros [] w1.
    rewrite setattr_shared, bind_ret_l by done.
    rewrite (getattr_instance_dict _ _ _
               (default (VBool false) (kwargs !! "load_config")));
      [|done|cbn [ConfigObject.instance_dict namespace mapping default
                  from_option id];
             by rewrite !lookup_insert_ne, lookup_insert_eq by done].
    rewrite (config_getattr_item _ _
               (default (VBool false) (kwargs !! "load_config")))
      by (by rewrite !lookup_insert_ne, lookup_insert_eq by done).
    rewrite !bind_ret_l.
    destruct (is_True _); [|done].
    apply (load_config_refines _ _ VStorage), lookup_insert_eq.
  - by rewrite setattr_shared.
Qed.

(** C10 (as amended).  The object that the constructor returns has its
    mapping for attribute namespace.  On it, for every name that is no
    data descriptor of the type, assigning the attribute and assigning
    the item are the same update, after which attribute access and item
    access both return the value; and every item is read by attribute
    access under its name.  The bookkeeping fields [load_config],
    [client] and [db], which the constructor assigns as attributes, are
    therefore items of the mapping, and an item is left out of the
    persisted record exactly when its name is not upper-case, which is
    the case of these three. *)
Theorem bookkeeping_fields_are_items T args kwargs w self w' :
  ConfigObject.__init__ T args kwargs w = (Ok self, w') →
  namespace self = None ∧
  (∀ name v (σ : World), name ∉ ConfigObject.data_descriptors →
     ConfigObject.setattr self name v σ
     = (Ok (ConfigObject.__setitem__ self name v), σ) ∧
     ConfigObject.getattr T (ConfigObject.__setitem__ self name v) name σ
     = (Ok v, σ) ∧
     ConfigObject.__getitem__ (ConfigObject.__setitem__ self name v) name σ
     = (Ok v, σ)) ∧
  (∀ name v (σ : World), name ∉ ConfigObject.data_descriptors →
     mapping self !! name = Some v →
     ConfigObject.getattr T self name σ = (Ok v, σ)) ∧
  (is_Some (mapping self !! "load_config") ∧
   is_Some (mapping self !! "client") ∧
   is_Some (mapping self !! "db")) ∧
  (∀ k v, Config.upper_items (mapping self) !! k = Some v
          ↔ mapping self !! k = Some v ∧ isupper k = true) ∧
  (Config.upper_items (mapping self) !! "load_config" = None ∧
   Config.upper_items (mapping self) !! "client" = None ∧
   Config.upper_items (mapping self) !! "db" = None).
Proof.
  rewrite init_refines.
  destruct (Config.__init__ args kwargs w) as [[d|e] w0] eqn:Hi; [|done].
  unfold shared_outcome. cbn [fst snd shared]. intros [= <- <-].
  cbn [mapping namespace].
  split; [done|]. split; [|split; [|split; [|split]]].
  - intros name v σ Hn. unfold ConfigObject.__setitem__.
    cbn [mapping namespace].
    split; [by rewrite setattr_shared|]. split.
    + rewrite (getattr_instance_dict _ _ _ v); [done..|].
      apply lookup_insert_eq.
    + unfold ConfigObject.__getitem__. cbn [mapping].
      by rewrite lookup_insert_eq.
  - intros name v σ Hn Hv. by rewrite (getattr_instance_dict _ _ _ v).
  - apply init_Ok_inv in Hi. cbv zeta in Hi.
    destruct Hi as [(_ & -> & _)|(_ & w1 & _ & [(_ & -> & _)|(_ & Hl)])].
    + by rewrite lookup_insert_eq, !lookup_insert_ne, lookup_insert_eq,
        lookup_insert_ne, lookup_insert_eq by done.
    + by rewrite lookup_insert_eq, !lookup_insert_ne, lookup_insert_eq,
        lookup_insert_ne, lookup_insert_eq by done.
    + apply load_config_Ok_inv in Hl as (cd & items & _ & _ & ->).
      assert (∀ k (self0 : dict), is_Some (self0 !! k) →
        is_Some ((<["DATA_DIR" := VStr (cwd w0)]> (items ∪ self0)) !! k))
        as Hkeep.
      { intros k self0 [x Hx].
        destruct (decide ("DATA_DIR" = k)) as [<-|Hne];
          [by rewrite lookup_insert_eq|].
        rewrite lookup_insert_ne by done. rewrite lookup_union.
        rewrite Hx. by destruct (items !! k). }
      repeat split; apply Hkeep.
      * by rewrite !lookup_insert_ne, lookup_insert_eq by done.
      * by rewrite lookup_insert_ne, lookup_insert_eq by done.
      * by rewrite lookup_insert_eq.
  - apply upper_items_lookup.
  - repeat split; apply eq_None_not_Some; intros [v Hk];
      by apply upper_items_lookup in Hk as [_ Hk].
Qed.

End with_settings.

Lemma bookkeeping_fields_are_items_witness :
  namespace default_object = None ∧
  (is_Some (mapping default_object !! "load_config") ∧
   is_Some (mapping default_object !! "client") ∧
   is_Some (mapping default_object !! "db")) ∧
  (Config.upper_items (mapping default_object) !! "load_config" = None ∧
   Config.upper_items (mapping default_object) !! "client" = None ∧
   Config.upper_items (mapping default_object) !! "db" = None).
Proof.
  destruct (@bookkeeping_fields_are_items example_settings
              example_type_namespace ∅ ∅ first_process
              default_object after_default_config)
    as (H1 & _ & _ & H3 & _ & H5).
  - vm_compute. reflexivity.
  - by repeat split.
Defined.

(** The names [__dict__], [__class__] and [__weakref__] are attributes
    that are no keys, and the sharing lasts only as long as [__dict__]
    is left alone.  On the object that [Config()] returns: assigning a
    dict to [__dict__] returns, makes no key of the name, and gives the
    instance a namespace of its own; from then on an attribute that is
    assigned is no key of the mapping, and an item that is assigned is
    no attribute; assigning [__class__] or [__weakref__] raises. *)
Lemma namespace_can_be_replaced :
  ∃ o1 o2,
    @ConfigObject.setattr World default_object "__dict__" (VDict ∅)
      after_default_config = (Ok o1, after_default_config) ∧
    mapping o1 !! "__dict__" = None ∧
    namespace o1 = Some ∅ ∧
    @ConfigObject.setattr World o1 "x" (VInt 1) after_default_config
    = (Ok o2, after_default_config) ∧
    mapping o2 !! "x" = None ∧
    @ConfigObject.getattr example_type_namespace World
      (ConfigObject.__setitem__ o1 "y" (VInt 1)) "y" after_default_config
    = (Raise (AttributeError "y"), after_default_config) ∧
    @ConfigObject.setattr World default_object "__class__" (VInt 1)
      after_default_config = (Raise TypeError, after_default_config) ∧
    @ConfigObject.setattr World default_object "__weakref__" (VInt 1)
      after_default_config
    = (Raise (AttributeError "__weakref__"), after_default_config).
Proof.
  eexists _, _. split; [vm_compute; reflexivity|].
  split; [vm_compute; reflexivity|]. split; [vm_compute; reflexivity|].
  split; [vm_compute; reflexivity|]. split; [vm_compute; reflexivity|].
  split; [vm_compute; reflexivity|]. split; vm_compute; reflexivity.
Qed.

Lemma class_dict_own_methods : own_methods Storage.class_dict = true.
Proof. vm_compute. reflexivity. Qed.

Lemma disk_doc_lookup fs p doc :
  fs !! p = Some (FJson doc) → disk_doc fs p = doc.
Proof. unfold disk_doc. by intros ->. Qed.

Section with_settings.
Context `{Settings}.

(** The registry of a new process after [Storage()] has loaded the
    document [doc]. *)
Lemma constructed_new_process w doc :
  files (store w) !! registry_file (cwd w) = Some (FJson doc) →
  Storage.__init__ true (new_process w)
  = (Ok tt, constructed true (new_process w)) ∧
  cwd (constructed true (new_process w)) = cwd w ∧
  _data_from_disk_loaded (this (store (constructed true (new_process w))))
  = true ∧
  _data (this (store (constructed true (new_process w)))) = doc ∧
  ∀ k, Storage_dict (constructed true (new_process w)) !! k
       = match doc !! k with
         | Some x => Some x
         | None =>
             (<["_loaded_db" := VBool true]>
                (<["db" := VStore]>
                   (<["filename" := VStr (registry_file (cwd w))]>
                      (<["config_dir" :=
                           VStr (path_join (cwd w) [CONFIG_DATA_FOLDER])]>
                         Storage.class_dict)))) !! k
         end.
Proof.
  intros Hf. split; [apply init_eq, class_dict_own_methods|].
  unfold constructed, new_process, db_loaded, loaded_store, pending.
  cbn [cwd store files writes this Storage_dict path _data
       _data_from_disk_loaded JSONStore.__init__ json_kw _synced_json_kw
       _needs_sync].
  rewrite (disk_doc_lookup _ _ _ Hf), (right_id_L ∅ (∪)).
  split; [done|]. split; [done|]. split; [done|].
  intros k. rewrite lookup_union.
  destruct (doc !! k); [|by rewrite (left_id_L None _)].
  by destruct (_ !! k).
Qed.

Lemma load_in_new_process w doc v :
  files (store w) !! registry_file (cwd w) = Some (FJson doc) →
  doc !! CONFIG_DB_KEY_APP_CONFIG = Some v →
  doc !! "load" = None → doc !! "_load_db" = None → doc !! "db" = None →
  ∃ w', Storage.load CONFIG_DB_KEY_APP_CONFIG (constructed true (new_process w))
        = (Ok v, w') ∧ cwd w' = cwd w.
Proof.
  intros Hf Hv Hload Hldb Hdb.
  destruct (constructed_new_process w doc Hf) as (_ & Hc & Hl & Hd & Hcls).
  set (W := constructed true (new_process w)) in *.
  rewrite load_eq. cbv zeta.
  assert (is_method (Storage_dict W) "load" = true) as ->.
  { unfold is_method. rewrite Hcls, Hload.
    by rewrite !lookup_insert_ne by done. }
  cbn [negb]. destruct (reloads _).
  - assert (is_method (Storage_dict W) "_load_db" = true) as ->.
    { unfold is_method. rewrite Hcls, Hldb.
      by rewrite !lookup_insert_ne by done. }
    assert (has_store (Storage_dict W) = true) as ->.
    { unfold has_store. rewrite Hcls, Hdb.
      by rewrite lookup_insert_ne, lookup_insert_eq by done. }
    cbn [andb]. eexists. split; [|by rewrite cwd_db_loaded].
    f_equal. unfold db_loaded. cbn [Storage_dict].
    rewrite loaded_store_id by done.
    rewrite lookup_union, Hd, Hv. by destruct (Storage_dict W !! _).
  - eexists. split; [|done]. by rewrite Hcls, Hv.
Qed.

End with_settings.

Lemma load_in_methods : "load" ∈ Storage.methods.
Proof. unfold Storage.methods. set_solver. Qed.
Lemma _load_db_in_methods : "_load_db" ∈ Storage.methods.
Proof. unfold Storage.methods. set_solver. Qed.

Lemma sanatize_drops (data : dict) k x :
  data !! k = Some x → JSONStore.kept k x = false →
  JSONStore._sanatize data !! k = None.
Proof.
  intros Hk Hx. apply eq_None_not_Some. intros [y Hy].
  apply sanatize_lookup in Hy as [Hy Hkept]. congruence.
Qed.

Section with_settings.
Context `{Settings}.

Lemma template_not_method m :
  m ∈ Config.methods → Config.config_template !! m = None.
Proof.
  intros Hm. unfold Config.config_template. simpl.
  repeat (apply elem_of_cons in Hm as [->|Hm];
          [by rewrite !lookup_insert_ne, lookup_empty by done|]).
  by apply elem_of_nil in Hm.
Qed.

Lemma template_upper k :
  isupper k = true →
  (<["db" := VStorage]>
     (<["client" := VBool false]>
        (<["load_config" := VBool true]>
           (Config.config_template
            ∪ ({["load_config" := VBool true]} ∪ ∅))))) !! k
  = Config.config_template !! k.
Proof.
  intros Hk.
  assert (k ≠ "db") by (intros ->; done).
  assert (k ≠ "client") by (intros ->; done).
  assert (k ≠ "load_config") by (intros ->; done).
  rewrite !lookup_insert_ne by done.
  rewrite lookup_union, (right_id_L ∅ (∪)), lookup_singleton_ne by done.
  by rewrite (right_id_L None _).
Qed.

(** A new process that builds [Config(load_config=True)] over a
    document holding the record [out]. *)
Lemma init_in_new_process w doc out :
  files (store w) !! registry_file (cwd w) = Some (FJson doc) →
  doc !! CONFIG_DB_KEY_APP_CONFIG = Some (VDict out) →
  doc !! "load" = None → doc !! "_load_db" = None → doc !! "db" = None →
  ∃ w',
    Config.__init__ ∅ {["load_config" := VBool true]} (new_process w)
    = (Ok (<["DATA_DIR" := VStr (cwd w)]>
             (out ∪ <["db" := VStorage]>
                      (<["client" := VBool false]>
                         (<["load_config" := VBool true]>
                            (Config.config_template
                             ∪ ({["load_config" := VBool true]} ∪ ∅)))))),
       w').
Proof.
  intros Hf Hout Hload Hldb Hdb.
  destruct (constructed_new_process w doc Hf) as (Hinit & _).
  destruct (load_in_new_process w doc _ Hf Hout Hload Hldb Hdb)
    as (w' & Hl & Hc).
  exists w'.
  unfold Config.__init__, Config.__postinit__, Config.setattr.
  rewrite !method_eq
    by (by rewrite (right_id_L ∅ (∪)), lookup_singleton_ne).
  unfold bind at 1. unfold ret at 1.
  unfold bind at 1. unfold Config.getattr at 1.
  rewrite lookup_insert_eq. unfold ret at 1.
  rewrite lookup_singleton_ne by done.
  cbn [default from_option id is_False].
  rewrite (bind_ok _ _ _ _ _ Hinit).
  unfold bind at 1. unfold Config.getattr at 1.
  rewrite lookup_insert_ne, lookup_insert_ne, lookup_insert_eq by done.
  unfold ret at 1. rewrite lookup_singleton_eq.
  cbn [default from_option id is_True].
  unfold Config._load_config. rewrite method_eq.
  2:{ rewrite !lookup_insert_ne by done.
      rewrite lookup_union, (right_id_L ∅ (∪)), lookup_singleton_ne by done.
      rewrite template_not_method; [done|]. set_solver. }
  unfold bind at 1. unfold Config.getattr at 1.
  rewrite lookup_insert_eq. unfold ret at 1. cbn [is_None Config.on_db].
  rewrite (bind_ok _ _ _ _ _ Hl).
  unfold_monad. unfold Config.setattr. by rewrite set_items_union, Hc.
Qed.

(** C3 (as amended).  When [save_config] has returned in one process, a
    new process over the same disk and in the same directory that
    builds [Config(load_config=True)] gets the working directory as
    [DATA_DIR] and, for every other upper-case name, the value that the
    saved object had where it had the name, and the value of the
    default template where it had not: the pairs that come back are
    those that were saved together with the default fields that the
    saved object lacked.  The statement supposes that the store of the
    first process is the one of its working directory, that the client
    configuration file is another file, that the settings key is not a
    name that [_sanatize] drops, and that no stored key has replaced a
    method of [Storage]. *)
Theorem settings_round_trip self w w2 :
  Config.save_config self w = (Ok tt, w2) →
  own_methods (Storage_dict w2) = true →
  CONFIG_DB_KEY_APP_CONFIG ∉ JSONStore.reserved_names →
  path (this (store w)) = registry_file (cwd w) →
  client_config_file self (cwd w) ≠ Some (registry_file (cwd w)) →
  ∃ self2 w3,
    Config.__init__ ∅ {["load_config" := VBool true]} (new_process w2)
    = (Ok self2, w3) ∧
    self2 !! "DATA_DIR" = Some (VStr (cwd w)) ∧
    ∀ k, isupper k = true → k ≠ "DATA_DIR" →
         self2 !! k = match self !! k with
                      | Some v => Some v
                      | None => Config.config_template !! k
                      end.
Proof.
  intros Hs Hown Hkey Hpath Hart.
  apply save_config_Ok_inv in Hs
    as (pk & art & Hcan & Ha & Hc & Hf & Ht & Hd).
  set (out := Config.upper_items self) in *.
  set (w1 := saved CONFIG_DB_KEY_APP_CONFIG (VDict out) w) in *.
  set (ents := _data (this (store w1))).
  assert (∀ k x, Storage_dict w2 !! k = Some x → ents !! k = Some x) as Hsub.
  { intros k x. destruct Hd as [-> | ->]; [|done].
    apply entries_for_save_lookup. }
  assert (∀ m, m ∈ Storage.methods →
               JSONStore._sanatize ents !! m = None) as Hmeth.
  { intros m Hm. apply (sanatize_drops _ _ (VFunc m)); [|done].
    apply Hsub. pose proof (own_methods_is_method _ m Hown Hm) as Hi.
    unfold is_method in Hi.
    destruct (Storage_dict w2 !! m) as [[]|]; try done.
    by apply bool_decide_eq_true in Hi as ->. }
  assert (JSONStore._sanatize ents !! "db" = None) as Hdb.
  { apply (sanatize_drops _ _ VStore); [|done].
    apply entries_for_save_lookup.
    unfold can_save in Hcan. rewrite !andb_true_iff in Hcan.
    destruct Hcan as [[_ Hst] _]. unfold has_store in Hst.
    by destruct (registry_for_save _ _ _ !! "db") as [[]|]. }
  assert (JSONStore._sanatize ents !! CONFIG_DB_KEY_APP_CONFIG
          = Some (VDict out)) as Hrec.
  { apply sanatize_lookup. split; [|by apply kept_dict].
    apply entries_for_save_lookup, lookup_insert_eq. }
  assert (files (store w2) !! registry_file (cwd w2)
          = Some (FJson (JSONStore._sanatize ents))) as Hfile.
  { rewrite Hc, Hf. rewrite lookup_insert_ne by congruence.
    unfold w1, saved. cbn [store files]. rewrite Hpath.
    apply lookup_insert_eq. }
  destruct (init_in_new_process w2 _ out Hfile Hrec
              (Hmeth "load" load_in_methods)
              (Hmeth "_load_db" _load_db_in_methods) Hdb) as (w3 & Hinit).
  eexists _, w3. split; [exact Hinit|]. rewrite Hc.
  split; [apply lookup_insert_eq|].
  intros k Hk Hne. rewrite lookup_insert_ne by done.
  rewrite lookup_union, template_upper by done.
  destruct (self !! k) as [v|] eqn:Hv.
  - assert (out !! k = Some v) as -> by by apply upper_items_lookup.
    by destruct (Config.config_template !! k).
  - assert (out !! k = None) as ->.
    { apply eq_None_not_Some. intros [v Hv'].
      apply upper_items_lookup in Hv' as [Hv' _]. congruence. }
    by rewrite (left_id_L None _).
Qed.

End with_settings.

Lemma settings_round_trip_witness :
  ∃ self2 w3,
    @Config.__init__ example_settings ∅ {["load_config" := VBool true]}
      (new_process after_acme_save) = (Ok self2, w3) ∧
    self2 !! "DATA_DIR" = Some (VStr "/repo") ∧
    ∀ k, isupper k = true → k ≠ "DATA_DIR" →
         self2 !! k = match acme_config !! k with
                      | Some v => Some v
                      | None => @Config.config_template example_settings !! k
                      end.
Proof.
  apply (@settings_round_trip example_settings acme_config
           after_default_config after_acme_save).
  - vm_compute. reflexivity.
  - vm_compute. reflexivity.
  - intros Hin. by repeat (apply elem_of_cons in Hin as [Hin|Hin];
      [discriminate|]); apply elem_of_nil in Hin.
  - vm_compute. reflexivity.
  - vm_compute. discriminate.
Defined.

(** The pairs that come back are not always those that were saved: an
    object saved without the default field [COMPANY_NAME] is loaded
    with it. *)
Lemma removed_default_comes_back :
  @Config.save_config example_settings pruned_config after_default_config
  = (Ok tt, after_pruned_save) ∧
  pruned_config !! "COMPANY_NAME" = None ∧
  ∃ self2 w3,
    @Config.__init__ example_settings ∅ {["load_config" := VBool true]}
      (new_process after_pruned_save) = (Ok self2, w3) ∧
    self2 !! "COMPANY_NAME" = Some (VStr "PyUpdater App").
Proof.
  split; [vm_compute; reflexivity|]. split; [vm_compute; reflexivity|].
  eexists _, _. split; [vm_compute; reflexivity|].
  vm_compute. reflexivity.
Qed.

(** * Further properties of the code *)

(** ** The document store *)

Lemma getitem_eq k σ :
  JSONStore.__getitem__ k σ
  = (match _data (this (loaded_store σ)) !! k with
     | Some v => Ok v
     | None => Raise (KeyError k)
     end, loaded_store σ).
Proof.
  unfold JSONStore.__getitem__. unfold bind. rewrite lazy_load_eq.
  unfold_monad. by destruct (_ !! k).
Qed.

Lemma setitem_eq k v σ :
  JSONStore.__setitem__ k v σ
  = (Ok tt,
     set_this (λ s, set__needs_sync true (set__data (<[k := v]> (_data s)) s))
              (loaded_store σ)).
Proof.
  unfold JSONStore.__setitem__, JSONStore.store_item. unfold bind.
  by rewrite lazy_load_eq.
Qed.

Lemma delitem_eq k σ :
  JSONStore.__delitem__ k σ
  = match _data (this (loaded_store σ)) !! k with
    | Some _ =>
        (Ok tt,
         set_this (λ s, set__needs_sync true
                          (set__data (delete k (_data s)) s))
                  (loaded_store σ))
    | None => (Raise (KeyError k), loaded_store σ)
    end.
Proof.
  unfold JSONStore.__delitem__. unfold bind. rewrite lazy_load_eq.
  unfold_monad. by destruct (_ !! k).
Qed.

Lemma loaded_store_set_this (f : JSONStore → JSONStore) σ :
  _data_from_disk_loaded (f (this (loaded_store σ))) = true →
  loaded_store (set_this f (loaded_store σ)) = set_this f (loaded_store σ).
Proof. intros H. by apply loaded_store_id. Qed.

(** X1.  Reading back what was just set gives the value, and setting a key
    leaves what is read under every other key as it was. *)
Theorem setitem_then_getitem k v k' σ :
  ((JSONStore.__setitem__ k v ;; JSONStore.__getitem__ k') σ).1
  = if decide (k = k') then Ok v else (JSONStore.__getitem__ k' σ).1.
Proof.
  unfold bind at 1. rewrite setitem_eq, !getitem_eq.
  rewrite loaded_store_set_this by done. unfold_setters. simpl.
  destruct (decide (k = k')) as [->|Hne].
  - by rewrite lookup_insert_eq.
  - by rewrite lookup_insert_ne.
Qed.

(** X2.  After [del store[k]] the key is gone, whether the deletion went
    through or raised; a deletion leaves what is read under every other
    key as it was. *)
Theorem delitem_then_getitem k k' σ :
  ((JSONStore.__delitem__ k ;; JSONStore.__getitem__ k') σ).1
  = if decide (k = k') then Raise (KeyError k)
    else match (JSONStore.__delitem__ k σ).1 with
         | Ok _ => (JSONStore.__getitem__ k' σ).1
         | Raise e => Raise e
         end.
Proof.
  unfold bind at 1. rewrite delitem_eq, !getitem_eq.
  destruct (_data (this (loaded_store σ)) !! k) as [x|] eqn:Hk; simpl.
  - rewrite getitem_eq, loaded_store_set_this by done. unfold_setters. simpl.
    destruct (decide (k = k')) as [->|Hne].
    + by rewrite lookup_delete_eq.
    + by rewrite lookup_delete_ne.
  - by destruct (decide (k = k')).
Qed.

(** X3.  A deletion that raises has changed nothing but what a read changes:
    the store is left as the lazy load left it, and the flag
    [_needs_sync] is not set by it. *)
Theorem failed_delitem_is_a_read k σ e :
  (JSONStore.__delitem__ k σ).1 = Raise e →
  e = KeyError k ∧
  (JSONStore.__delitem__ k σ).2 = (JSONStore.__getitem__ k σ).2 ∧
  (JSONStore.__getitem__ k σ).1 = Raise (KeyError k).
Proof.
  rewrite delitem_eq, getitem_eq.
  destruct (_data (this (loaded_store σ)) !! k) as [x|]; simpl; [done|].
  by intros [= <-].
Qed.

Lemma copy_eq σ :
  JSONStore.copy σ = (Ok (_data (this (loaded_store σ))), loaded_store σ).
Proof.
  unfold JSONStore.copy. unfold bind. by rewrite lazy_load_eq.
Qed.

Lemma loaded_store_fresh fs wr p kw :
  loaded_store (mkStoreState fs wr (JSONStore.__init__ p kw))
  = mkStoreState fs wr
      (mkJSONStore p (dict_or kw ∅) (disk_doc fs p) None
                   (nonempty (disk_doc fs p)) true).
Proof.
  unfold loaded_store, pending, JSONStore.__init__. simpl.
  by rewrite (right_id_L ∅ (∪)).
Qed.

(** X4.  The first access to a store constructed over a path shows the JSON
    object of the file at that path, and nothing at all when the file is
    missing or does not parse: neither [IOError] nor [ValueError]
    reaches the caller. *)
Theorem first_access_shows_document fs wr p kw k :
  let σ := mkStoreState fs wr (JSONStore.__init__ p kw) in
  (JSONStore.copy σ).1 = Ok (disk_doc fs p) ∧
  (JSONStore.__len__ σ).1 = Ok (size (disk_doc fs p)) ∧
  (JSONStore.__getitem__ k σ).1
  = match disk_doc fs p !! k with
    | Some v => Ok v
    | None => Raise (KeyError k)
    end.
Proof.
  intros σ. subst σ. rewrite copy_eq, getitem_eq.
  unfold JSONStore.__len__. unfold bind. rewrite lazy_load_eq.
  by rewrite loaded_store_fresh.
Qed.

(** X5.  Once the lazy load has run, the store never looks at the disk
    again: what an operation answers and the store it leaves do not
    depend on the files. *)
Theorem loaded_store_ignores_disk o fs fs' wr wr' s :
  _data_from_disk_loaded s = true →
  (exec o (mkStoreState fs wr s)).1 = (exec o (mkStoreState fs' wr' s)).1 ∧
  this (exec o (mkStoreState fs wr s)).2
  = this (exec o (mkStoreState fs' wr' s)).2.
Proof.
  intros Hl. rewrite !exec_eq. cbv zeta.
  rewrite !loaded_store_id by done.
  destruct o as [k|k v|k| | | | |kw force]; simpl; try done.
  - by destruct (_data s !! k).
  - rewrite !sync_eq. cbv zeta. rewrite !loaded_store_id by done. simpl.
    destruct (negb _); [done|]. by destruct (json_ok _).
Qed.

Lemma loaded_store_ignores_disk_witness :
  (exec OLen (mkStoreState ∅ [] (this (loaded_store fresh_store_on_empty_disk)))).1
  = (exec OLen (mkStoreState {[ "/x" := FOther ]} ["/x"]
                  (this (loaded_store fresh_store_on_empty_disk)))).1.
Proof.
  apply (loaded_store_ignores_disk OLen ∅ {[ "/x" := FOther ]} [] ["/x"]).
  reflexivity.
Defined.

(** X6.  A sync that has written the file can be read back: a store opened
    afterwards on the same path holds the entries of the first one that
    pass [_sanatize], whatever its own options. *)
Theorem sync_then_reopen kw force σ σ1 kw' :
  JSONStore.sync kw force σ = (Ok true, σ1) →
  (JSONStore.copy
     (mkStoreState (files σ1) (writes σ1)
                   (JSONStore.__init__ (path (this σ)) kw'))).1
  = Ok (JSONStore._sanatize (_data (this σ1))).
Proof.
  rewrite sync_eq. cbv zeta.
  destruct (negb _); [done|].
  destruct (json_ok _); [|done].
  intros [= <-]. rewrite copy_eq, loaded_store_fresh. simpl.
  unfold disk_doc. by rewrite lookup_insert_eq.
Qed.

(** X7.  When [json.dumps] rejects an entry, [sync] raises its [TypeError]
    with the file already opened for writing: the former content of the
    file is gone, and a store opened afterwards on the path starts
    empty.  The entries in memory are kept. *)
Theorem failed_sync_truncates kw force σ σ1 kw' :
  JSONStore.sync kw force σ = (Raise TypeError, σ1) →
  files σ1 !! path (this σ) = Some FOther ∧
  _data (this σ1) = _data (this (loaded_store σ)) ∧
  (JSONStore.copy
     (mkStoreState (files σ1) (writes σ1)
                   (JSONStore.__init__ (path (this σ)) kw'))).1 = Ok ∅.
Proof.
  rewrite sync_eq. cbv zeta.
  destruct (negb _); [done|].
  destruct (json_ok _); [done|].
  intros [= <-]. rewrite copy_eq, loaded_store_fresh. simpl.
  unfold disk_doc. by rewrite lookup_insert_eq.
Qed.

(** X8.  [sync] opens its file for writing exactly when it does not return
    [False]; with [force=True] it never returns [False], and a sync
    that returns [False] leaves the files alone and the store clean. *)
Theorem sync_opens_unless_false kw force σ :
  writes (JSONStore.sync kw force σ).2
  = match (JSONStore.sync kw force σ).1 with
    | Ok false => writes σ
    | _ => path (this σ) :: writes σ
    end ∧
  ((JSONStore.sync kw force σ).1 = Ok false →
   force = false ∧
   files (JSONStore.sync kw force σ).2 = files σ ∧
   _needs_sync (this (JSONStore.sync kw force σ).2) = false).
Proof.
  rewrite sync_eq. cbv zeta.
  destruct (negb _) eqn:Hn; simpl.
  - split; [done|]. intros _.
    apply negb_true_iff in Hn. apply orb_false_iff in Hn as [Hn ->].
    apply orb_false_iff in Hn as [Hn _]. done.
  - destruct (json_ok _); simpl; split; done.
Qed.

Lemma sync_opens_unless_false_witness :
  writes (JSONStore.sync None true fresh_store_on_empty_disk).2
  = path (this fresh_store_on_empty_disk) :: writes fresh_store_on_empty_disk.
Proof.
  exact (proj1 (sync_opens_unless_false None true fresh_store_on_empty_disk)).
Defined.

(** X9.  [_sanatize] drops entries and changes none, and what it returns
    passes it unchanged. *)
Theorem sanatize_idempotent (d : dict) :
  JSONStore._sanatize d ⊆ d ∧
  JSONStore._sanatize (JSONStore._sanatize d) = JSONStore._sanatize d.
Proof.
  unfold JSONStore._sanatize. split; [apply map_filter_subseteq|].
  apply map_eq. intros k. apply option_eq. intros v.
  rewrite !map_lookup_filter_Some. split; [by intros [? _]|].
  by intros [? ?].
Qed.

(** X10.  [keys], [len] and iteration agree: the keys are those of the
    pairs that iteration yields, no key comes twice, and [len] counts
    them. *)
Theorem keys_len_iter_agree σ :
  ∃ items,
    (JSONStore.__iter__ σ).1 = Ok items ∧
    (JSONStore.keys σ).1 = Ok items.*1 ∧
    (JSONStore.__len__ σ).1 = Ok (length items) ∧
    NoDup items.*1 ∧
    ∀ k v, (k, v) ∈ items ↔ (JSONStore.__getitem__ k σ).1 = Ok v.
Proof.
  exists (map_to_list (_data (this (loaded_store σ)))).
  unfold JSONStore.__iter__, JSONStore.keys, JSONStore.__len__.
  unfold bind. rewrite lazy_load_eq. unfold_monad. cbn [fst].
  rewrite length_map_to_list. repeat split; try done.
  - apply NoDup_fst_map_to_list.
  - intros H%elem_of_map_to_list. rewrite getitem_eq. by rewrite H.
  - rewrite getitem_eq. intros H. apply elem_of_map_to_list.
    destruct (_ !! k); by inversion H.
Qed.

Lemma failed_delitem_is_a_read_witness :
  (JSONStore.__delitem__ "k" fresh_store_on_empty_disk).2
  = (JSONStore.__getitem__ "k" fresh_store_on_empty_disk).2.
Proof.
  refine (proj1 (proj2 (failed_delitem_is_a_read "k" fresh_store_on_empty_disk
                          (KeyError "k") _))).
  vm_compute. reflexivity.
Defined.

Lemma sync_then_reopen_witness :
  (JSONStore.copy
     (mkStoreState (files (JSONStore.sync None true fresh_store_on_empty_disk).2)
                   (writes (JSONStore.sync None true fresh_store_on_empty_disk).2)
                   (JSONStore.__init__ (path (this fresh_store_on_empty_disk))
                                       None))).1
  = Ok (JSONStore._sanatize
          (_data (this (JSONStore.sync None true fresh_store_on_empty_disk).2))).
Proof.
  apply (sync_then_reopen None true fresh_store_on_empty_disk).
  vm_compute. reflexivity.
Defined.

Lemma failed_sync_truncates_witness :
  files (JSONStore.sync None false store_with_descriptor).2
    !! path (this store_with_descriptor) = Some FOther.
Proof.
  refine (proj1 (failed_sync_truncates None false store_with_descriptor
                   _ None _)).
  vm_compute. reflexivity.
Defined.

(** ** The shared registry *)


Lemma storage_getitem_eq k w :
  Storage.__getitem__ k w
  = if is_method (Storage_dict w) "__getitem__"
    then (match Storage_dict w !! k with
          | Some v => Ok v
          | None => Raise (KeyError k)
          end, w)
    else (Raise TypeError, w).
Proof.
  unfold Storage.__getitem__. rewrite invoke_eq.
  destruct (is_method _ _); [|done]. unfold_monad.
  by destruct (_ !! k).
Qed.

(** X11.  [load] never writes: whatever it returns or raises, the files, the
    log of files opened for writing and the working directory are as
    before. *)
Theorem load_never_writes k w :
  files (store (Storage.load k w).2) = files (store w) ∧
  writes (store (Storage.load k w).2) = writes (store w) ∧
  cwd (Storage.load k w).2 = cwd w.
Proof.
  destruct (Storage.load k w) as [r w'] eqn:Hl.
  by destruct (load_frame_load _ _ _ _ Hl) as (? & ? & ? & _).
Qed.

(** X12.  A [save] that returns has opened one file for writing, the file of
    the store, exactly once, and has left every other file as it
    was. *)
Theorem save_rewrites_its_file_only key v w w1 :
  Storage.save key v w = (Ok tt, w1) →
  writes (store w1) = path (this (store w)) :: writes (store w) ∧
  (∀ p, p ≠ path (this (store w)) →
        files (store w1) !! p = files (store w) !! p) ∧
  path (this (store w1)) = path (this (store w)).
Proof.
  intros [_ ->]%save_Ok_inv. unfold saved. cbn [store writes files this path].
  split; [done|]. split; [|done]. intros p Hp. by rewrite lookup_insert_ne.
Qed.

Lemma save_rewrites_its_file_only_witness :
  writes (store (Storage.save "Y" (VInt 2) after_first_save).2)
  = path (this (store after_first_save)) :: writes (store after_first_save).
Proof.
  refine (proj1 (save_rewrites_its_file_only "Y" (VInt 2) after_first_save _ _)).
  vm_compute. reflexivity.
Defined.

Lemma registry_sub_entries key v w :
  registry_for_save key v w ∪ entries_for_save key v w
  = entries_for_save key v w.
Proof.
  unfold entries_for_save. rewrite (assoc_L (∪)).
  by rewrite (idemp (∪) (registry_for_save key v w)).
Qed.

Lemma union_absorb_r (E R : dict) : R ⊆ E → E ∪ R = E.
Proof.
  intros Hsub. apply map_eq. intros k. rewrite lookup_union.
  destruct (E !! k) as [x|] eqn:Hx; [by destruct (R !! k)|].
  rewrite (left_id_L None _).
  destruct (R !! k) as [y|] eqn:Hy; [|done].
  by rewrite (lookup_weaken _ _ _ _ Hy Hsub) in Hx.
Qed.

Lemma data_saved key v w :
  _data (this (store (saved key v w))) = entries_for_save key v w.
Proof. done. Qed.

Lemma dict_saved key v w :
  Storage_dict (saved key v w) = registry_for_save key v w.
Proof. done. Qed.

Lemma files_saved key v w :
  files (store (saved key v w))
  = <[path (this (store w)) :=
        FJson (JSONStore._sanatize (entries_for_save key v w))]>
      (files (store w)).
Proof. done. Qed.

Lemma writes_saved key v w :
  writes (store (saved key v w)) = path (this (store w)) :: writes (store w).
Proof. done. Qed.

Lemma this_saved key v w :
  this (store (saved key v w))
  = mkJSONStore (path (this (store w))) (json_kw (this (store w)))
                (entries_for_save key v w)
                (Some (json_kw (this (store w)))) false true.
Proof. done. Qed.

Lemma entries_saved key v w :
  entries_for_save key v (saved key v w) = entries_for_save key v w.
Proof.
  unfold entries_for_save at 1. unfold registry_for_save at 1.
  rewrite loaded_store_id by done.
  unfold db_loaded. rewrite loaded_store_id by done.
  cbn [Storage_dict]. rewrite !data_saved, !dict_saved.
  assert (<[key := v]> (entries_for_save key v w) = entries_for_save key v w)
    as Hi.
  { apply insert_id, entries_for_save_lookup.
    unfold registry_for_save. apply lookup_insert_eq. }
  assert (<[key := v]> (registry_for_save key v w) = registry_for_save key v w)
    as Hr.
  { apply insert_id. unfold registry_for_save. apply lookup_insert_eq. }
  destruct (reloads _).
  - rewrite (union_absorb_r (entries_for_save key v w)
                            (registry_for_save key v w))
      by (unfold entries_for_save; apply map_union_subseteq_l).
    rewrite Hi. apply (idemp (∪)).
  - rewrite Hr. apply registry_sub_entries.
Qed.

(** X13.  Saving the same key and value a second time changes neither the
    document on disk nor the store: the file is written again with the
    same content. *)
Theorem save_twice_same_document key v w w1 w2 :
  Storage.save key v w = (Ok tt, w1) →
  Storage.save key v w1 = (Ok tt, w2) →
  files (store w2) = files (store w1) ∧
  this (store w2) = this (store w1) ∧
  writes (store w2) = path (this (store w1)) :: writes (store w1).
Proof.
  intros [_ ->]%save_Ok_inv [_ ->]%save_Ok_inv.
  rewrite (files_saved key v (saved key v w)),
    (this_saved key v (saved key v w)), (writes_saved key v (saved key v w)).
  rewrite entries_saved, files_saved, this_saved. cbn [path json_kw].
  by rewrite insert_insert_eq.
Qed.

Lemma save_twice_same_document_witness :
  files (store (Storage.save "X" (VInt 1) after_first_save).2)
  = files (store after_first_save).
Proof.
  refine (proj1 (save_twice_same_document "X" (VInt 1)
                   (@Storage.__init__ example_settings true first_process).2
                   after_first_save _ _ _)).
  - vm_compute. reflexivity.
  - vm_compute. reflexivity.
Defined.





(** X16.  Item access does not take part in the deferred load: while the flag
    [_loaded_db] is [False], [storage[k]] raises [KeyError] for a key
    that only the store holds, where [storage.load(k)] returns its
    value. *)
Theorem item_access_skips_deferred_load k v0 w :
  own_methods (Storage_dict w) = true →
  has_store (Storage_dict w) = true →
  reloads (Storage_dict w) = true →
  Storage_dict w !! k = None →
  (JSONStore.__getitem__ k (store w)).1 = Ok v0 →
  Storage.__getitem__ k w = (Raise (KeyError k), w) ∧
  (Storage.load k w).1 = Ok v0.
Proof.
  intros Hm Hs Hr Hk Hg.
  pose proof (own_methods_is_method _ "__getitem__" Hm ltac:(set_solver)) as H1.
  pose proof (own_methods_is_method _ _ Hm load_in_methods) as H2.
  pose proof (own_methods_is_method _ _ Hm _load_db_in_methods) as H3.
  rewrite getitem_eq in Hg. cbn [fst] in Hg.
  destruct (_data (this (loaded_store (store w))) !! k) as [x|] eqn:Hx;
    [|done]. injection Hg as ->.
  rewrite storage_getitem_eq, H1, Hk. split; [done|].
  rewrite load_eq. cbv zeta. rewrite H2, Hr, H3, Hs. cbn [negb andb fst].
  unfold db_loaded. cbn [Storage_dict].
  by rewrite (lookup_union_Some_l _ _ _ _ Hx).
Qed.

Lemma item_access_skips_deferred_load_witness :
  Storage.__getitem__ "X" deferred_process
  = (Raise (KeyError "X"), deferred_process) ∧
  (Storage.load "X" deferred_process).1 = Ok (VInt 1).
Proof.
  apply (item_access_skips_deferred_load "X" (VInt 1) deferred_process);
    vm_compute; reflexivity.
Defined.

Section with_settings.
Context `{Settings}.

(** X17.  The constructor writes no file, and reads the file of the store
    exactly when [refresh] is true.  It does not reset the registry: a
    name bound before is still bound after, to the value of the document
    if the document was read and has the name, and to its former value
    otherwise. *)
Theorem constructor_keeps_registry refresh w :
  own_methods (Storage_dict w) = true →
  ∃ w', Storage.__init__ refresh w = (Ok tt, w') ∧
    files (store w') = files (store w) ∧
    writes (store w') = writes (store w) ∧
    path (this (store w')) = registry_file (cwd w) ∧
    _data_from_disk_loaded (this (store w')) = refresh ∧
    ∀ k, k ∉ ["config_dir"; "filename"; "db"; "_loaded_db"] →
      Storage_dict w' !! k
      = match (if refresh
               then disk_doc (files (store w)) (registry_file (cwd w)) !! k
               else None) with
        | Some x => Some x
        | None => Storage_dict w !! k
        end.
Proof.
  intros Hm. exists (constructed refresh w). split; [by apply init_eq|].
  unfold constructed. cbv zeta.
  destruct refresh.
  - unfold db_loaded. cbn [store Storage_dict].
    rewrite loaded_store_fresh. cbn [files writes this path _data
      _data_from_disk_loaded].
    do 4 (split; [done|]). intros k Hk.
    rewrite lookup_union.
    assert (∀ a b c d : value,
      (<["_loaded_db" := a]> (<["db" := b]> (<["filename" := c]>
         (<["config_dir" := d]> (Storage_dict w))))) !! k
      = Storage_dict w !! k) as ->.
    { intros. rewrite !lookup_insert_ne; [done|..]; intros <-; set_solver. }
    destruct (disk_doc _ _ !! k); [|by rewrite (left_id_L None _)].
    by destruct (Storage_dict w !! k).
  - cbn [store Storage_dict files writes this path _data_from_disk_loaded].
    do 4 (split; [done|]). intros k Hk.
    rewrite !lookup_insert_ne; [done|..]; intros <-; set_solver.
Qed.

End with_settings.

Lemma constructor_keeps_registry_witness :
  ∃ w', @Storage.__init__ example_settings true after_first_save = (Ok tt, w') ∧
    files (store w') = files (store after_first_save).
Proof.
  destruct (@constructor_keeps_registry example_settings true after_first_save)
    as (w' & Hi & Hf & _).
  - vm_compute. reflexivity.
  - exists w'. by split.
Defined.

(** ** The configuration object *)

Section with_settings.
Context `{Settings}.

Lemma template_lookup_ne k v m :
  Config.config_template !! k = Some v → m ∈ bookkeeping_fields → k ≠ m.
Proof.
  intros Hk Hm ->. unfold Config.config_template in Hk. simpl in Hk.
  repeat (apply elem_of_cons in Hm as [->|Hm];
          [by rewrite !lookup_insert_ne, lookup_empty in Hk by done|]).
  by apply elem_of_nil in Hm.
Qed.

(** X18.  An object built with a [client] argument other than [False] has no
    file access: its construction creates no [Storage] and changes
    nothing in the process, even with [load_config=True]; its field
    [db] is [None], and [save_config] and [_load_config] raise
    [ConfigError] without touching anything. *)
Theorem client_mode_has_no_file_access args kwargs w self w' :
  Config.__init__ args kwargs w = (Ok self, w') →
  is_False (default (VBool false) (kwargs !! "client")) = false →
  w' = w ∧ self !! "db" = Some VNone ∧
  (∀ w0, self !! "save_config" = None →
     Config.save_config self w0
     = (Raise (ConfigError "This object is configured with no file access"),
        w0)) ∧
  (∀ w0, self !! "_load_config" = None →
     Config._load_config self w0
     = (Raise (ConfigError "This object is configured with no file access"),
        w0)).
Proof.
  intros Hi Hc. apply init_Ok_inv in Hi. cbv zeta in Hi.
  destruct Hi as [(_ & -> & ->) | (Hc' & _)]; [|congruence].
  split; [done|]. split; [apply lookup_insert_eq|].
  split; intros w0 Hm.
  - unfold Config.save_config. rewrite method_eq by done.
    unfold bind, Config.getattr. by rewrite lookup_insert_eq.
  - unfold Config._load_config. rewrite method_eq by done.
    unfold bind, Config.getattr. by rewrite lookup_insert_eq.
Qed.

(** X19.  The default fields are set after the arguments of the constructor
    have been taken, so they win over them: unless the persisted record
    is loaded, every default field has its default value after
    construction, whatever was passed for it.  A name that is neither a
    default field nor one of [load_config], [client], [db] has the value
    passed for it, a keyword argument before the mapping argument. *)
Theorem defaults_override_arguments args kwargs w self w' :
  Config.__init__ args kwargs w = (Ok self, w') →
  is_True (default (VBool false) (kwargs !! "load_config")) = false →
  (∀ k v, Config.config_template !! k = Some v → self !! k = Some v) ∧
  (∀ k, Config.config_template !! k = None → k ∉ bookkeeping_fields →
        self !! k = match kwargs !! k with
                    | Some v => Some v
                    | None => args !! k
                    end).
Proof.
  intros Hi Hl. apply init_Ok_inv in Hi. cbv zeta in Hi.
  assert (∃ d, self =
    <["db" := d]>
      (<["client" := default (VBool false) (kwargs !! "client")]>
         (<["load_config" := default (VBool false) (kwargs !! "load_config")]>
            (Config.config_template ∪ (kwargs ∪ args))))) as [d ->].
  { destruct Hi as [(_ & -> & _) | (_ & w1 & _ & [(_ & -> & _) | (Hl' & _)])];
      [by eexists|by eexists|congruence]. }
  assert ("load_config" ∈ bookkeeping_fields) as Hb1 by repeat constructor.
  assert ("client" ∈ bookkeeping_fields) as Hb2 by repeat constructor.
  assert ("db" ∈ bookkeeping_fields) as Hb3 by repeat constructor.
  split.
  - intros k v Hk.
    pose proof (template_lookup_ne _ _ _ Hk Hb1).
    pose proof (template_lookup_ne _ _ _ Hk Hb2).
    pose proof (template_lookup_ne _ _ _ Hk Hb3).
    rewrite !lookup_insert_ne by done.
    by apply lookup_union_Some_l.
  - intros k Hk Hb.
    assert (k ≠ "load_config") by (by intros ->).
    assert (k ≠ "client") by (by intros ->).
    assert (k ≠ "db") by (by intros ->).
    rewrite !lookup_insert_ne by done.
    rewrite !lookup_union, Hk, (left_id_L None _).
    destruct (kwargs !! k); [|by rewrite (left_id_L None _)].
    by destruct (args !! k).
Qed.

(** X20.  An object built without the [client] argument, as [Config()], is a
    repository object: [from_object] rejects it with [ConfigError]
    whatever the external object is. *)
Theorem repo_mode_rejects_from_object {Σ} args kwargs w self w' obj (σ : Σ) :
  Config.__init__ args kwargs w = (Ok self, w') →
  kwargs !! "client" = None →
  is_True (default (VBool false) (kwargs !! "load_config")) = false →
  self !! "from_object" = None →
  Config.from_object self obj σ
  = (Raise (ConfigError "This object is not configured for client use"), σ).
Proof.
  intros Hi Hc Hl Hm. apply init_Ok_inv in Hi. cbv zeta in Hi.
  rewrite Hc in Hi. cbn [default from_option id is_False] in Hi.
  destruct Hi as [(? & _) | (_ & w1 & _ & [(_ & -> & _) | (Hl' & _)])];
    [done| |congruence].
  unfold Config.from_object. rewrite method_eq by done.
  unfold bind, Config.getattr.
  by rewrite lookup_insert_ne, lookup_insert_eq by done.
Qed.

End with_settings.

Lemma client_mode_has_no_file_access_witness :
  client_config !! "db" = Some VNone.
Proof.
  refine (proj1 (proj2 (@client_mode_has_no_file_access example_settings
            ∅ {["client" := VBool true]} first_process client_config
            first_process _ _))).
  - vm_compute. reflexivity.
  - vm_compute. reflexivity.
Defined.

Lemma defaults_override_arguments_witness :
  named_config !! "APP_NAME" = Some (VStr "PyUpdater App").
Proof.
  refine (proj1 (@defaults_override_arguments example_settings
                   ∅ {["APP_NAME" := VStr "Mine"]}
                   first_process named_config after_default_config _ _)
            "APP_NAME" (VStr "PyUpdater App") _).
  - vm_compute. reflexivity.
  - vm_compute. reflexivity.
  - vm_compute. reflexivity.
Defined.

Lemma repo_mode_rejects_from_object_witness :
  @Config.from_object unit default_config {["APP_NAME" := VStr "Acme"]} tt
  = (Raise (ConfigError "This object is not configured for client use"), tt).
Proof.
  apply (@repo_mode_rejects_from_object example_settings unit ∅ ∅
           first_process default_config after_default_config).
  - vm_compute. reflexivity.
  - vm_compute. reflexivity.
  - vm_compute. reflexivity.
  - vm_compute. reflexivity.
Defined.

Section with_settings.
Context `{Settings}.

Lemma constructed_without_document w :
  disk_doc (files (store w)) (registry_file (cwd w)) = ∅ →
  Storage.__init__ true (new_process w)
  = (Ok tt, constructed true (new_process w)) ∧
  cwd (constructed true (new_process w)) = cwd w ∧
  files (store (constructed true (new_process w))) = files (store w) ∧
  writes (store (constructed true (new_process w))) = writes (store w) ∧
  Storage_dict (constructed true (new_process w))
  = <["_loaded_db" := VBool true]>
      (<["db" := VStore]>
         (<["filename" := VStr (registry_file (cwd w))]>
            (<["config_dir" := VStr (path_join (cwd w) [CONFIG_DATA_FOLDER])]>
               Storage.class_dict))).
Proof.
  intros Hd. split; [apply init_eq, class_dict_own_methods|].
  unfold constructed, new_process, db_loaded.
  cbn [cwd store Storage_dict files writes].
  rewrite loaded_store_fresh. cbn [files writes this _data].
  rewrite Hd. by rewrite (left_id_L ∅ (∪)).
Qed.

(** X21.  [Config(load_config=True)] in a new process whose store file is
    missing, or is no JSON document, succeeds and writes no file: the
    object has the default fields with their default values, the
    working directory as [DATA_DIR], and no other upper-case field. *)
Theorem load_config_without_record w :
  disk_doc (files (store w)) (registry_file (cwd w)) = ∅ →
  Storage.class_dict !! CONFIG_DB_KEY_APP_CONFIG = None →
  CONFIG_DB_KEY_APP_CONFIG ∉ ["config_dir"; "filename"; "db"; "_loaded_db"] →
  ∃ self w',
    Config.__init__ ∅ {["load_config" := VBool true]} (new_process w)
    = (Ok self, w') ∧
    files (store w') = files (store w) ∧
    writes (store w') = writes (store w) ∧
    self !! "DATA_DIR" = Some (VStr (cwd w)) ∧
    ∀ k, isupper k = true → k ≠ "DATA_DIR" →
         self !! k = Config.config_template !! k.
Proof.
  intros Hd Hkey Hown.
  destruct (constructed_without_document w Hd)
    as (Hinit & Hc & Hf & Hw & Hcls).
  set (W := constructed true (new_process w)) in *.
  assert (CONFIG_DB_KEY_APP_CONFIG ≠ "config_dir") as Hn1
    by (intros E; apply Hown; rewrite E; repeat constructor).
  assert (CONFIG_DB_KEY_APP_CONFIG ≠ "filename") as Hn2
    by (intros E; apply Hown; rewrite E; repeat constructor).
  assert (CONFIG_DB_KEY_APP_CONFIG ≠ "db") as Hn3
    by (intros E; apply Hown; rewrite E; repeat constructor).
  assert (CONFIG_DB_KEY_APP_CONFIG ≠ "_loaded_db") as Hn4
    by (intros E; apply Hown; rewrite E; repeat constructor).
  assert (Storage.load CONFIG_DB_KEY_APP_CONFIG W = (Ok VNone, W)) as Hl.
  { rewrite load_eq. cbv zeta. rewrite Hcls.
    rewrite !is_method_insert_ne by done.
    assert (is_method Storage.class_dict "load" = true) as ->
      by (vm_compute; reflexivity).
    cbn [negb]. unfold reloads. rewrite lookup_insert_eq.
    cbn [default from_option id is_False].
    rewrite !lookup_insert_ne by done. by rewrite Hkey. }
  eexists _, W.
  split.
  - unfold Config.__init__, Config.__postinit__, Config.setattr.
    rewrite !method_eq
      by (by rewrite (right_id_L ∅ (∪)), lookup_singleton_ne).
    unfold bind at 1. unfold ret at 1.
    unfold bind at 1. unfold Config.getattr at 1.
    rewrite lookup_insert_eq. unfold ret at 1.
    rewrite lookup_singleton_ne by done.
    cbn [default from_option id is_False].
    rewrite (bind_ok _ _ _ _ _ Hinit).
    unfold bind at 1. unfold Config.getattr at 1.
    rewrite lookup_insert_ne, lookup_insert_ne, lookup_insert_eq by done.
    unfold ret at 1. rewrite lookup_singleton_eq.
    cbn [default from_option id is_True].
    unfold Config._load_config. rewrite method_eq.
    2:{ rewrite !lookup_insert_ne by done.
        rewrite lookup_union, (right_id_L ∅ (∪)), lookup_singleton_ne by done.
        rewrite template_not_method; [done|]. repeat constructor. }
    unfold bind at 1. unfold Config.getattr at 1.
    rewrite lookup_insert_eq. unfold ret at 1. cbn [is_None Config.on_db].
    rewrite (bind_ok _ _ _ _ _ Hl).
    unfold_monad. unfold Config.setattr.
    rewrite set_items_union, (left_id_L ∅ (∪)), Hc. reflexivity.
  - split; [done|]. split; [done|].
    split; [apply lookup_insert_eq|].
    intros k Hk Hne. rewrite lookup_insert_ne by done.
    by apply template_upper.
Qed.

End with_settings.

Lemma load_config_without_record_witness :
  ∃ self w',
    @Config.__init__ example_settings ∅ {["load_config" := VBool true]}
      (new_process first_process) = (Ok self, w') ∧
    files (store w') = files (store first_process) ∧
    writes (store w') = writes (store first_process) ∧
    self !! "DATA_DIR" = Some (VStr (cwd first_process)) ∧
    ∀ k, isupper k = true → k ≠ "DATA_DIR" →
         self !! k = @Config.config_template example_settings !! k.
Proof.
  apply (@load_config_without_record example_settings first_process).
  - vm_compute. reflexivity.
  - vm_compute. reflexivity.
  - intros Hin. by repeat (apply elem_of_cons in Hin as [Hin|Hin];
      [discriminate|]); apply elem_of_nil in Hin.
Defined.

Lemma client_config_lines_names (self : dict) pk :
  attr_name <$> Config.client_config_lines self pk
  = filter (λ n, is_Some (self !! n)) client_config_fields.
Proof.
  unfold Config.client_config_lines, Config.hasattr, client_config_fields.
  rewrite !fmap_app.
  destruct (self !! "APP_NAME") eqn:E1, (self !! "COMPANY_NAME") eqn:E2,
    (self !! "UPDATE_URLS") eqn:E3, (self !! "PUBLIC_KEY") eqn:E4,
    (self !! "MAX_DOWNLOAD_RETRIES") eqn:E5;
    repeat (first
      [rewrite filter_cons_True
         by (cbn beta; rewrite ?E1, ?E2, ?E3, ?E4, ?E5; by eexists)
      |rewrite filter_cons_False
         by (cbn beta; rewrite ?E1, ?E2, ?E3, ?E4, ?E5; by intros [? ?])]);
    rewrite filter_nil;
    rewrite ?bool_decide_eq_true_2 by (by eexists);
    rewrite ?bool_decide_eq_false_2 by (by intros [? ?]);
    reflexivity.
Qed.

Lemma own_line_elem (self : dict) n (mk : string → value → attr_line) l :
  l ∈ (if Config.hasattr self n
       then [mk n (default VNone (self !! n))] else [])
  ↔ ∃ v, self !! n = Some v ∧ l = mk n v.
Proof.
  unfold Config.hasattr. destruct (self !! n) as [v|].
  - rewrite bool_decide_eq_true_2 by (by eexists).
    rewrite list_elem_of_singleton. split.
    + intros ->. by exists v.
    + by intros (v' & [= <-] & ->).
  - rewrite bool_decide_eq_false_2 by (by intros [? ?]).
    rewrite elem_of_nil. split; [done|]. by intros (v & ? & _).
Qed.

Lemma key_line_elem (self : dict) n key l :
  l ∈ (if Config.hasattr self n then [QuotedAttr n key] else [])
  ↔ is_Some (self !! n) ∧ l = QuotedAttr n key.
Proof.
  unfold Config.hasattr. case_bool_decide as Hs.
  - rewrite list_elem_of_singleton. split; [by intros ->|by intros [_ ->]].
  - rewrite elem_of_nil. split; [done|]. by intros [? _].
Qed.

Section with_settings.
Context `{Settings}.

(** X22.  When the key record of the registry has the entry
    [client.offline_public], [_write_config_py] returns and the client
    configuration file consists of one assignment for each of the
    fields [APP_NAME], [COMPANY_NAME], [UPDATE_URLS], [PUBLIC_KEY],
    [MAX_DOWNLOAD_RETRIES] that the object has, in this order and no
    other: the four other fields with the value of the object, quoted
    for the two names and plain for [UPDATE_URLS] and
    [MAX_DOWNLOAD_RETRIES], and [PUBLIC_KEY], quoted, with the key of
    the record, whatever value the object has under that name. *)
Theorem client_config_file_content self w d c key w1 segs :
  self !! "_write_config_py" = None →
  self !! "db" = Some VStorage →
  Storage.load CONFIG_DB_KEY_KEYPACK w = (Ok (VDict d), w1) →
  d !! "client" = Some (VDict c) →
  c !! "offline_public" = Some key →
  self !! "CLIENT_CONFIG_PATH" = Some (VList (VStr <$> segs)) →
  ∃ w2 lines,
    Config._write_config_py self w = (Ok tt, w2) ∧
    files (store w2) !! path_join (cwd w) segs = Some (FClientConfig lines) ∧
    attr_name <$> lines
    = filter (λ n, is_Some (self !! n)) client_config_fields ∧
    ∀ l, l ∈ lines ↔
      (∃ v, self !! "APP_NAME" = Some v ∧ l = QuotedAttr "APP_NAME" v) ∨
      (∃ v, self !! "COMPANY_NAME" = Some v ∧
            l = QuotedAttr "COMPANY_NAME" v) ∨
      (∃ v, self !! "UPDATE_URLS" = Some v ∧ l = PlainAttr "UPDATE_URLS" v) ∨
      (is_Some (self !! "PUBLIC_KEY") ∧ l = QuotedAttr "PUBLIC_KEY" key) ∨
      (∃ v, self !! "MAX_DOWNLOAD_RETRIES" = Some v ∧
            l = PlainAttr "MAX_DOWNLOAD_RETRIES" v).
Proof.
  intros Hm Hdb Hl Hc Hk Hccp.
  exists (mkWorld (cwd w1)
            (mkStoreState
               (<[path_join (cwd w1) segs :=
                    FClientConfig (Config.client_config_lines self key)]>
                  (<[path_join (cwd w1) segs := FOther]> (files (store w1))))
               (path_join (cwd w1) segs :: writes (store w1))
               (this (store w1)))
            (Storage_dict w1)),
         (Config.client_config_lines self key).
  split; [|split; [|split]].
  - unfold Config._write_config_py. rewrite method_eq by done.
    unfold bind at 1. unfold Config.getattr at 1. rewrite Hdb.
    unfold ret at 1. cbn [is_None Config.on_db].
    rewrite (bind_ok _ _ _ _ _ Hl). cbn [is_None].
    unfold bind at 1. unfold bind at 1. unfold Config.subscript at 1.
    rewrite Hc. unfold ret at 1. unfold Config.subscript at 1.
    rewrite Hk. unfold ret at 1.
    unfold bind at 1. unfold Config.getattr. rewrite Hccp. unfold ret at 1.
    rewrite segments_strings. unfold_monad. unfold_setters. simpl.
    reflexivity.
  - cbn [store files]. apply load_frame_load in Hl as (-> & _).
    apply lookup_insert_eq.
  - apply client_config_lines_names.
  - intros l. unfold Config.client_config_lines.
    rewrite !elem_of_app, !own_line_elem, key_line_elem. reflexivity.
Qed.

End with_settings.

Lemma client_config_file_content_witness :
  ∃ w2 lines,
    @Config._write_config_py example_settings keyed_config after_keypack
    = (Ok tt, w2) ∧
    files (store w2) !! path_join (cwd after_keypack) ["client_config.py"]
    = Some (FClientConfig lines) ∧
    attr_name <$> lines
    = filter (λ n, is_Some (keyed_config !! n)) client_config_fields ∧
    ∀ l, l ∈ lines ↔
      (∃ v, keyed_config !! "APP_NAME" = Some v ∧ l = QuotedAttr "APP_NAME" v) ∨
      (∃ v, keyed_config !! "COMPANY_NAME" = Some v ∧
            l = QuotedAttr "COMPANY_NAME" v) ∨
      (∃ v, keyed_config !! "UPDATE_URLS" = Some v ∧
            l = PlainAttr "UPDATE_URLS" v) ∨
      (is_Some (keyed_config !! "PUBLIC_KEY") ∧
       l = QuotedAttr "PUBLIC_KEY" (VStr "KEY")) ∨
      (∃ v, keyed_config !! "MAX_DOWNLOAD_RETRIES" = Some v ∧
            l = PlainAttr "MAX_DOWNLOAD_RETRIES" v).
Proof.
  apply (@client_config_file_content example_settings keyed_config
           after_keypack example_keypack
           {["offline_public" := VStr "KEY"]} (VStr "KEY")
           (Storage.load "keypack" after_keypack).2 ["client_config.py"]).
  - vm_compute. reflexivity.
  - vm_compute. reflexivity.
  - vm_compute. reflexivity.
  - vm_compute. reflexivity.
  - vm_compute. reflexivity.
  - vm_compute. reflexivity.
Defined.

Section with_settings.
Context `{Settings}.

(** X23.  A [save_config] that returns has written the client configuration
    file in full, from the object; apart from this file and the file of
    the store, every file is as before. *)
Theorem save_config_writes_two_files self w w2 :
  Config.save_config self w = (Ok tt, w2) →
  ∃ pk art,
    client_config_file self (cwd w) = Some art ∧
    files (store w2) !! art
    = Some (FClientConfig (Config.client_config_lines self pk)) ∧
    ∀ p, p ≠ art → p ≠ path (this (store w)) →
         files (store w2) !! p = files (store w) !! p.
Proof.
  intros Hs. apply save_config_Ok_inv in Hs
    as (pk & art & _ & Ha & _ & Hf & _ & _).
  exists pk, art. split; [done|]. rewrite Hf.
  split; [apply lookup_insert_eq|].
  intros p Hp1 Hp2. rewrite lookup_insert_ne by done.
  rewrite files_saved. by rewrite lookup_insert_ne.
Qed.

(** X24.  The round trip in full: after a [save_config] that returned, the
    object that a new process builds with [load_config=True] has, for
    every upper-case name other than [DATA_DIR], the value of the saved
    object where it had the name, and the default value where it had
    not.  A default field that the caller removed before saving comes
    back with its default. *)
Theorem round_trip_restores_defaults self w w2 :
  Config.save_config self w = (Ok tt, w2) →
  own_methods (Storage_dict w2) = true →
  CONFIG_DB_KEY_APP_CONFIG ∉ JSONStore.reserved_names →
  path (this (store w)) = registry_file (cwd w) →
  client_config_file self (cwd w) ≠ Some (registry_file (cwd w)) →
  ∃ self2 w3,
    Config.__init__ ∅ {["load_config" := VBool true]} (new_process w2)
    = (Ok self2, w3) ∧
    ∀ k, isupper k = true → k ≠ "DATA_DIR" →
         self2 !! k = match self !! k with
                      | Some v => Some v
                      | None => Config.config_template !! k
                      end.
Proof.
  intros Hs Hown Hkey Hpath Hart.
  apply save_config_Ok_inv in Hs
    as (pk & art & Hcan & Ha & Hc & Hf & Ht & Hd).
  set (out := Config.upper_items self) in *.
  set (w1 := saved CONFIG_DB_KEY_APP_CONFIG (VDict out) w) in *.
  set (ents := _data (this (store w1))).
  assert (∀ k x, Storage_dict w2 !! k = Some x → ents !! k = Some x) as Hsub.
  { intros k x. destruct Hd as [-> | ->]; [|done].
    apply entries_for_save_lookup. }
  assert (∀ m, m ∈ Storage.methods →
               JSONStore._sanatize ents !! m = None) as Hmeth.
  { intros m Hm. apply (sanatize_drops _ _ (VFunc m)); [|done].
    apply Hsub. pose proof (own_methods_is_method _ m Hown Hm) as Hi.
    unfold is_method in Hi.
    destruct (Storage_dict w2 !! m) as [[]|]; try done.
    by apply bool_decide_eq_true in Hi as ->. }
  assert (JSONStore._sanatize ents !! "db" = None) as Hdb.
  { apply (sanatize_drops _ _ VStore); [|done].
    apply entries_for_save_lookup.
    unfold can_save in Hcan. rewrite !andb_true_iff in Hcan.
    destruct Hcan as [[_ Hst] _]. unfold has_store in Hst.
    by destruct (registry_for_save _ _ _ !! "db") as [[]|]. }
  assert (JSONStore._sanatize ents !! CONFIG_DB_KEY_APP_CONFIG
          = Some (VDict out)) as Hrec.
  { apply sanatize_lookup. split; [|by apply kept_dict].
    apply entries_for_save_lookup, lookup_insert_eq. }
  assert (files (store w2) !! registry_file (cwd w2)
          = Some (FJson (JSONStore._sanatize ents))) as Hfile.
  { rewrite Hc, Hf. rewrite lookup_insert_ne by congruence.
    unfold w1, saved. cbn [store files]. rewrite Hpath.
    apply lookup_insert_eq. }
  destruct (init_in_new_process w2 _ out Hfile Hrec
              (Hmeth "load" load_in_methods)
              (Hmeth "_load_db" _load_db_in_methods) Hdb) as (w3 & Hinit).
  eexists _, w3. split; [exact Hinit|].
  intros k Hk Hne. rewrite lookup_insert_ne by done.
  rewrite lookup_union, template_upper by done.
  destruct (self !! k) as [v|] eqn:Hv.
  - assert (out !! k = Some v) as -> by by apply upper_items_lookup.
    by destruct (Config.config_template !! k).
  - assert (out !! k = None) as ->.
    { apply eq_None_not_Some. intros [v Hv'].
      apply upper_items_lookup in Hv' as [Hv' _]. congruence. }
    by rewrite (left_id_L None _).
Qed.

End with_settings.

Lemma save_config_writes_two_files_witness :
  ∃ pk art,
    @client_config_file acme_config (cwd after_default_config) = Some art ∧
    files (store after_acme_save) !! art
    = Some (FClientConfig (Config.client_config_lines acme_config pk)) ∧
    ∀ p, p ≠ art → p ≠ path (this (store after_default_config)) →
         files (store after_acme_save) !! p
         = files (store after_default_config) !! p.
Proof.
  apply (@save_config_writes_two_files example_settings acme_config
           after_default_config after_acme_save).
  vm_compute. reflexivity.
Defined.

Lemma round_trip_restores_defaults_witness :
  ∃ self2 w3,
    @Config.__init__ example_settings ∅ {["load_config" := VBool true]}
      (new_process after_pruned_save) = (Ok self2, w3) ∧
    ∀ k, isupper k = true → k ≠ "DATA_DIR" →
         self2 !! k = match pruned_config !! k with
                      | Some v => Some v
                      | None => @Config.config_template example_settings !! k
                      end.
Proof.
  apply (@round_trip_restores_defaults example_settings pruned_config
           after_default_config after_pruned_save).
  - vm_compute. reflexivity.
  - vm_compute. reflexivity.
  - intros Hin. by repeat (apply elem_of_cons in Hin as [Hin|Hin];
      [discriminate|]); apply elem_of_nil in Hin.
  - vm_compute. reflexivity.
  - vm_compute. discriminate.
Defined.

(** ** Persistence of the document store *)

Lemma exec_frame o σ p :
  p ≠ path (this σ) →
  files (exec o σ).2 !! p = files σ !! p ∧
  path (this (exec o σ).2) = path (this σ) ∧
  json_kw (this (exec o σ).2) = json_kw (this σ) ∧
  _data_from_disk_loaded (this (exec o σ).2) = true.
Proof.
  intros Hp. rewrite exec_eq. cbv zeta.
  destruct o as [k|k v|k| | | | |kw force]; simpl; try done.
  - by destruct (_ !! k).
  - rewrite sync_eq. cbv zeta.
    destruct (negb _); [done|].
    destruct (json_ok _); simpl; by rewrite !lookup_insert_ne.
Qed.

(** X25.  Whatever operations run on a store, and whatever they return or
    raise, the store keeps its path and its options and leaves every
    file other than its own as it was; after the first operation its
    lazy load is over. *)
Theorem store_touches_only_its_file ops σ p :
  p ≠ path (this σ) →
  files (run ops σ) !! p = files σ !! p ∧
  path (this (run ops σ)) = path (this σ) ∧
  json_kw (this (run ops σ)) = json_kw (this σ) ∧
  (ops ≠ [] → _data_from_disk_loaded (this (run ops σ)) = true).
Proof.
  revert σ. induction ops as [|o ops IH]; intros σ Hp; simpl; [done|].
  destruct (exec_frame o σ p Hp) as (Hf & Hpa & Hkw & Hl).
  destruct (IH (exec o σ).2) as (Hf' & Hpa' & Hkw' & Hl'); [congruence|].
  split; [congruence|]. split; [congruence|]. split; [congruence|].
  intros _. destruct ops as [|o' ops]; [done|]. by apply Hl'.
Qed.

Lemma store_touches_only_its_file_witness :
  files (run [OSet "k" (VInt 1); OSync None true] fresh_store_on_empty_disk)
    !! "/other" = files fresh_store_on_empty_disk !! "/other".
Proof.
  refine (proj1 (store_touches_only_its_file
                   [OSet "k" (VInt 1); OSync None true]
                   fresh_store_on_empty_disk "/other" _)).
  vm_compute. discriminate.
Defined.

(** X26.  An entry set and synced is on disk: a [sync] that returns after a
    [set] has written the file, and a store opened afterwards on the
    path reads the value back, provided the entry is one that
    [_sanatize] keeps. *)
Theorem set_sync_reopen k v kw force σ b σ1 kw' :
  (JSONStore.__setitem__ k v ;; JSONStore.sync kw force) σ = (Ok b, σ1) →
  JSONStore.kept k v = true →
  b = true ∧
  (JSONStore.__getitem__ k
     (mkStoreState (files σ1) (writes σ1)
                   (JSONStore.__init__ (path (this σ)) kw'))).1 = Ok v.
Proof.
  unfold bind at 1. rewrite setitem_eq, sync_eq. cbv zeta.
  rewrite loaded_store_set_this by done. unfold_setters. simpl.
  destruct (json_ok _); [|done].
  intros [= <- <-] Hk. split; [done|].
  rewrite getitem_eq, loaded_store_fresh. simpl.
  unfold disk_doc. rewrite lookup_insert_eq.
  assert (JSONStore._sanatize (<[k := v]> (pending σ ∪ _data (this σ))) !! k
          = Some v) as ->; [|done].
  apply sanatize_lookup. split; [apply lookup_insert_eq|done].
Qed.

Lemma set_sync_reopen_witness :
  (JSONStore.__getitem__ "k"
     (mkStoreState
        (files ((JSONStore.__setitem__ "k" (VInt 1) ;;
                 JSONStore.sync None false) fresh_store_on_empty_disk).2)
        (writes ((JSONStore.__setitem__ "k" (VInt 1) ;;
                  JSONStore.sync None false) fresh_store_on_empty_disk).2)
        (JSONStore.__init__ (path (this fresh_store_on_empty_disk)) None))).1
  = Ok (VInt 1).
Proof.
  refine (proj2 (set_sync_reopen "k" (VInt 1) None false
                   fresh_store_on_empty_disk true _ None _ _)).
  - vm_compute. reflexivity.
  - vm_compute. reflexivity.
Defined.
